(** * tables-to-go: the struct generator of [tablestogo.go]

    A shallow embedding of the generator: the type mapper
    [mapDbColumnTypeToGoType], the settings check [VerifySettings], the
    emitter [createStructOfTable] and the driver [run]/[Run], together with
    the parts of the Go standard library they call ([strings], [path/filepath],
    [os]).  Go strings are byte strings; the generator is run on ASCII text
    and carries bytes above 0x7F through unchanged, as the bytes of caseless
    letters.  [strings.Title] over every byte string, with UTF-8 decoding and
    the tables of package [unicode] as parameters, is [stringsUTF8.Title]. *)

From Stdlib Require Import String Ascii List ZArith NArith Lia Bool.
From stdpp Require Import base option strings gmap.

Open Scope string_scope.
Open Scope Z_scope.

(** ** Characters the generator writes *)

Definition TAB : string := String (ascii_of_nat 9) EmptyString.
Definition NL : string := String (ascii_of_nat 10) EmptyString.
Definition DQ : string := String (ascii_of_nat 34) EmptyString.
Definition BQ : string := String (ascii_of_nat 96) EmptyString.

(** ** Package [strings] of the Go standard library (ASCII range) *)

Module strings.

(** [strings.Contains(s, substr)]: [substr] occurs in [s]. *)
Fixpoint Contains (s substr : string) : bool :=
  String.prefix substr s
  || match s with
     | EmptyString => false
     | String _ s' => Contains s' substr
     end.

Definition isDigit (r : ascii) : bool :=
  let n := N_of_ascii r in ((48 <=? n) && (n <=? 57))%N.
Definition isLower (r : ascii) : bool :=
  let n := N_of_ascii r in ((97 <=? n) && (n <=? 122))%N.
Definition isUpper (r : ascii) : bool :=
  let n := N_of_ascii r in ((65 <=? n) && (n <=? 90))%N.

(** [isSeparator]: ASCII alphanumerics and underscore are not separators,
    every other ASCII character is; a byte above 0x7F belongs to a letter. *)
Definition isSeparator (r : ascii) : bool :=
  if (N_of_ascii r <=? 127)%N then
    if isDigit r then false
    else if isLower r then false
    else if isUpper r then false
    else if Ascii.eqb r "_" then false
    else true
  else false.

(** [unicode.ToTitle] on ASCII: a lower-case letter becomes upper case. *)
Definition ToTitle (r : ascii) : ascii :=
  if isLower r then ascii_of_N (N_of_ascii r - 32) else r.

(** The closure of [strings.Title]: [prev] is the rune read before [s]. *)
Fixpoint titleFrom (prev : ascii) (s : string) : string :=
  match s with
  | EmptyString => EmptyString
  | String r s' =>
      String (if isSeparator prev then ToTitle r else r) (titleFrom r s')
  end.

(** [strings.Title(s)] on ASCII text: the letter that begins each word
    mapped to its title case; [prev] starts as a space.  The generator is
    run on ASCII identifiers with this definition; [stringsUTF8.Title] below
    is [strings.Title] over every byte string, and the two agree on ASCII
    text (lemma [Title_on_ascii]). *)
Definition Title (s : string) : string := titleFrom " " s.

End strings.

(** ** [sql.NullString] *)

Module sql.
Record NullString : Type := { String : string; Valid : bool }.
End sql.

(** ** The type mapper *)

(** A [case] of a Go [switch] over strings: the tag equals one of the labels. *)
Definition case (tag : string) (labels : list string) : bool :=
  existsb (String.eqb tag) labels.

Definition integerTypes : list string :=
  ["integer"; "bigint"; "bigserial"; "smallint"; "smallserial"; "serial";
   "int"; "tinyint"; "mediumint"].
Definition floatTypes : list string :=
  ["double precision"; "numeric"; "decimal"; "real";
   "float"; "double"].
Definition textTypes : list string :=
  ["character varying"; "character"; "text";
   "char"; "varchar"; "binary"; "varbinary"; "blob"].
Definition temporalTypes : list string :=
  ["time"; "timestamp"; "time with time zone"; "timestamp with time zone";
   "time without time zone"; "timestamp without time zone";
   "date"; "datetime"; "year"].
Definition booleanTypes : list string := ["boolean"].

(** [mapDbColumnTypeToGoType(dbDataType, isNullable) (goType, isTime)]. *)
Definition mapDbColumnTypeToGoType (dbDataType isNullable : string)
  : string * bool :=
  let isTime := false in
  if case dbDataType integerTypes then
    let goType := "int" in
    let goType := if String.eqb isNullable "YES" then "sql.NullInt64" else goType in
    (goType, isTime)
  else if case dbDataType floatTypes then
    let goType := "float64" in
    let goType := if String.eqb isNullable "YES" then "sql.NullFloat64" else goType in
    (goType, isTime)
  else if case dbDataType textTypes then
    let goType := "string" in
    let goType := if String.eqb isNullable "YES" then "sql.NullString" else goType in
    (goType, isTime)
  else if case dbDataType temporalTypes then
    let goType := "time.Time" in
    let goType := if String.eqb isNullable "YES" then "pq.NullTime" else goType in
    let isTime := true in
    (goType, isTime)
  else if case dbDataType booleanTypes then
    let goType := "bool" in
    let goType := if String.eqb isNullable "YES" then "sql.NullBool" else goType in
    (goType, isTime)
  else
    let goType := "sql.NullString" in
    (goType, isTime).

(** ** Package [path/filepath] of the Go standard library (Unix) *)

Module filepath.

Definition Separator : ascii := "/".

(** The elements of a path: the pieces between separators.  ["a//b"] has the
    elements ["a"], the empty element and ["b"]. *)
Fixpoint elements (path : string) : list string :=
  match path with
  | EmptyString => [EmptyString]
  | String c rest =>
      if Ascii.eqb c Separator then EmptyString :: elements rest
      else match elements rest with
           | e :: es => String c e :: es
           | [] => [String c EmptyString]
           end
  end.

(** [strings.Join(elems, "/")]. *)
Fixpoint joinElements (elems : list string) : string :=
  match elems with
  | [] => EmptyString
  | [e] => e
  | e :: rest => e +:+ "/" +:+ joinElements rest
  end.

Definition IsAbs (path : string) : bool := String.prefix "/" path.

(** The loop of [Clean] over the elements; [out] holds the elements kept so
    far, the last one first.  Empty elements and [.] are dropped; [..]
    removes the element before it, is dropped at the root, and is kept at
    the start of a path that is not rooted. *)
Fixpoint cleanElements (rooted : bool) (out elems : list string)
  : list string :=
  match elems with
  | [] => out
  | e :: rest =>
      if String.eqb e EmptyString then cleanElements rooted out rest
      else if String.eqb e "." then cleanElements rooted out rest
      else if String.eqb e ".." then
        match out with
        | top :: out' =>
            if String.eqb top ".." then cleanElements rooted (e :: out) rest
            else cleanElements rooted out' rest
        | [] =>
            if rooted then cleanElements rooted out rest
            else cleanElements rooted [e] rest
        end
      else cleanElements rooted (e :: out) rest
  end.

(** [filepath.Clean(path)]: the shortest path equivalent to [path] by
    lexical processing.  The result ends in a slash only if it is the root;
    an empty result is ["."]. *)
Definition Clean (path : string) : string :=
  if String.eqb path EmptyString then "."
  else
    let rooted := IsAbs path in
    let out := joinElements (rev (cleanElements rooted [] (elements path))) in
    if rooted then "/" +:+ out
    else if String.eqb out EmptyString then "." else out.

(** [filepath.Join(elem...)]: the elements from the first non-empty one on,
    joined by the separator and cleaned. *)
Fixpoint Join (elem : list string) : string :=
  match elem with
  | [] => EmptyString
  | e :: rest =>
      if String.eqb e EmptyString then Join rest
      else Clean (joinElements elem)
  end.

(** [path[:i+1]] for the index [i] of the last separator of [path]. *)
Fixpoint upToLastSeparator (path : string) : string :=
  match path with
  | EmptyString => EmptyString
  | String c rest =>
      match upToLastSeparator rest with
      | EmptyString =>
          if Ascii.eqb c Separator then String c EmptyString else EmptyString
      | p => String c p
      end
  end.

(** [filepath.Dir(path)]: all but the last element of [path], cleaned. *)
Definition Dir (path : string) : string := Clean (upToLastSeparator path).

(** [filepath.Abs(path)] in the working directory [wd]: a path that is
    already absolute is cleaned, any other is joined to [wd]. *)
Definition Abs (wd path : string) : string :=
  if IsAbs path then Clean path else Join [wd; path].

End filepath.

(** ** Errors *)

(** The errors of a run: those [tablestogo.go] creates with [errors.New], and
    those it passes on from [os], [go/format] and the database. *)
Inductive Error : Type :=
| DbTypeNotSupported (dbType : string)
| OutputFormatNotSupported (outputFormat : string)
| OutputPathNotExists (outputFilePath : string)
| OutputPathNotDirectory (outputFilePath : string)
| PackageNameEmpty
| PathError (op path : string)
| FormatError (src : string)
| DatabaseError (msg : string).

(** A Go [error] value; [None] is [nil]. *)
Abbreviation error := (option Error).

(** ** Package [os]: a file system of directories and regular files *)

Module os.

Inductive Node : Type :=
| Directory
| Regular (content : string).

(** The process's view of the operating system: its working directory and
    the nodes of the file system, keyed by absolute clean path. *)
Record World : Type := { wd : string; nodes : gmap string Node }.

Definition IsDir (info : Node) : bool :=
  match info with Directory => true | Regular _ => false end.

(** [os.Stat(name)]: the node at [name], or the not-exist error.  The
    file system has no symbolic links and no permissions, and the path is
    resolved by cleaning it: for a path with no [..] element that is the
    node the operating system reaches.  The other errors of the system call
    are outside this file system. *)
Definition Stat (w : World) (name : string) : option Node * error :=
  if String.eqb name EmptyString then (None, Some (PathError "stat" name))
  else
    match nodes w !! filepath.Abs (wd w) name with
    | Some info => (Some info, None)
    | None => (None, Some (PathError "stat" name))
    end.

(** [os.IsNotExist(err)]; [Stat] reports no other error here. *)
Definition IsNotExist (err : error) : bool :=
  match err with Some (PathError _ _) => true | _ => false end.

(** [os.Create(name)]: creates or truncates the regular file [name] in an
    existing directory.  The handle of the open file is its absolute path. *)
Definition Create (w : World) (name : string) : World * string * error :=
  let path := filepath.Abs (wd w) name in
  let fail := (w, EmptyString, Some (PathError "open" name)) in
  if String.eqb name EmptyString then fail
  else
    match nodes w !! filepath.Dir path, nodes w !! path with
    | Some Directory, None
    | Some Directory, Some (Regular _) =>
        ({| wd := wd w; nodes := <[path := Regular EmptyString]> (nodes w) |},
         path, None)
    | _, _ => fail
    end.

(** [File.Write(b)] on the handle [file]: appends [b] to its content. *)
Definition Write (w : World) (file : string) (b : string) : World :=
  match nodes w !! file with
  | Some (Regular content) =>
      {| wd := wd w; nodes := <[file := Regular (content +:+ b)]> (nodes w) |}
  | _ => w
  end.

End os.

(** ** The data model *)

Record Settings : Type := {
  Verbose : bool;
  DbType : string;
  User : string;
  Pswd : string;
  DbName : string;
  Schema : string;
  Host : string;
  Port : string;
  OutputFilePath : string;
  OutputFormat : string;
  PackageName : string;
  Prefix : string;
  Suffix : string;
  IsMastermindStructable : bool;
  IsMastermindStructableOnly : bool;
  IsMastermindStructableRecorder : bool
}.

(** The assignment [settings.OutputFilePath = v]. *)
Definition setOutputFilePath (v : string) (s : Settings) : Settings :=
  {| Verbose := Verbose s; DbType := DbType s; User := User s; Pswd := Pswd s;
     DbName := DbName s; Schema := Schema s; Host := Host s; Port := Port s;
     OutputFilePath := v;
     OutputFormat := OutputFormat s; PackageName := PackageName s;
     Prefix := Prefix s; Suffix := Suffix s;
     IsMastermindStructable := IsMastermindStructable s;
     IsMastermindStructableOnly := IsMastermindStructableOnly s;
     IsMastermindStructableRecorder := IsMastermindStructableRecorder s |}.

(** The assignment [settings.Port = v]. *)
Definition setPort (v : string) (s : Settings) : Settings :=
  {| Verbose := Verbose s; DbType := DbType s; User := User s; Pswd := Pswd s;
     DbName := DbName s; Schema := Schema s; Host := Host s; Port := v;
     OutputFilePath := OutputFilePath s;
     OutputFormat := OutputFormat s; PackageName := PackageName s;
     Prefix := Prefix s; Suffix := Suffix s;
     IsMastermindStructable := IsMastermindStructable s;
     IsMastermindStructableOnly := IsMastermindStructableOnly s;
     IsMastermindStructableRecorder := IsMastermindStructableRecorder s |}.

Definition NewSettings : Settings :=
  {| Verbose := false;
     DbType := "pg";
     User := "postgres";
     Pswd := EmptyString;
     DbName := "postgres";
     Schema := "public";
     Host := "127.0.0.1";
     Port := "5432";
     OutputFilePath := "./output";
     OutputFormat := "c";
     PackageName := "dto";
     Prefix := EmptyString;
     Suffix := EmptyString;
     IsMastermindStructable := false;
     IsMastermindStructableOnly := false;
     IsMastermindStructableRecorder := false |}.

Definition SupportedDbTypes : list string := ["pg"; "mysql"].
Definition SupportedOutputFormats : list string := ["c"; "o"].

Definition DbTypeToDriverMap : gmap string string :=
  <["pg" := "postgres"]> (<["mysql" := "mysql"]> ∅).

Definition DbDefaultPorts : gmap string string :=
  <["pg" := "5432"]> (<["mysql" := "3306"]> ∅).

(** Indexing a Go [map[string]string]: a missing key reads as the empty string. *)
Definition mapIndex (m : gmap string string) (key : string) : string :=
  default EmptyString (m !! key).

(** A column as the emitter reads it (the declaration is outside
    [tablestogo.go]; these are the fields [createStructOfTable] uses). *)
Record Column : Type := {
  ColumnName : string;
  DataType : string;
  IsNullable : string;
  ColumnDefault : sql.NullString;
  ColumnKey : string;
  Extra : string
}.

Record Table : Type := {
  TableName : string;
  Columns : list Column
}.

(** The interface [Database] that [run] drives; its two implementations are
    outside [tablestogo.go].  [GetColumnsOfTable] fills the columns of the
    table it is given. *)
Class Database : Type := {
  GetTables : list Table * error;
  PrepareGetColumnsOfTableStmt : error;
  GetColumnsOfTable : Table -> Table * error
}.

(** ** Helpers declared outside [tablestogo.go] *)

(** Modelled from the spec: [IsStringInSlice] is declared outside
    [tablestogo.go].  Section 7 names what [VerifySettings] rejects with it,
    an unsupported dialect or output format: the string is not one of the
    members of the slice. *)
Definition IsStringInSlice (needle : string) (haystack : list string) : bool :=
  existsb (String.eqb needle) haystack.

(** Modelled from the spec: the alphanumeric characters of section 4.3, the
    letters and digits; a byte above 0x7F belongs to a letter. *)
Definition isAlphanumeric (c : ascii) : bool :=
  negb (strings.isSeparator c) && negb (Ascii.eqb c "_").

(** Modelled from the spec: the segments [CamelCaseString] splits an
    identifier into, the runs between characters that are not
    alphanumeric. *)
Fixpoint segments (s : string) : list string :=
  match s with
  | EmptyString => [EmptyString]
  | String c rest =>
      if isAlphanumeric c then
        match segments rest with
        | seg :: segs => String c seg :: segs
        | [] => [String c EmptyString]
        end
      else EmptyString :: segments rest
  end.

(** Modelled from the spec: [CamelCaseString] capitalizes a segment, its
    first letter becomes upper case. *)
Definition capitalize (segment : string) : string :=
  match segment with
  | EmptyString => EmptyString
  | String c rest => String (strings.ToTitle c) rest
  end.

(** Modelled from the spec: [CamelCaseString] is declared outside
    [tablestogo.go].  Section 4.3: it splits on non-alphanumeric separators
    and capitalizes each segment, concatenating without separators. *)
Definition CamelCaseString (s : string) : string :=
  fold_right String.append EmptyString (map capitalize (segments s)).

(** ** Settings verification *)

Definition verifyOutputPath (w : os.World) (outputFilePath : string) : error :=
  let '(info, err) := os.Stat w outputFilePath in
  if os.IsNotExist err then Some (OutputPathNotExists outputFilePath)
  else
    match info with
    | Some info =>
        if negb (os.IsDir info) then Some (OutputPathNotDirectory outputFilePath)
        else err
    | None => err
    end.

(** [filepath.Abs] fails only when the working directory cannot be read, which
    the file system modelled here always can. *)
Definition prepareOutputPath (w : os.World) (ofp : string) : string * error :=
  let outputFilePath := filepath.Abs (os.wd w) (ofp +:+ "/") in
  (outputFilePath, None).

(** [VerifySettings(settings)]: the settings behind the pointer after the call,
    and the error returned. *)
Definition VerifySettings (w : os.World) (settings : Settings)
  : Settings * error :=
  if negb (IsStringInSlice (DbType settings) SupportedDbTypes) then
    (settings, Some (DbTypeNotSupported (DbType settings)))
  else if negb (IsStringInSlice (OutputFormat settings) SupportedOutputFormats) then
    (settings, Some (OutputFormatNotSupported (OutputFormat settings)))
  else
    match verifyOutputPath w (OutputFilePath settings) with
    | Some err => (settings, Some err)
    | None =>
        let '(ofp, err) := prepareOutputPath w (OutputFilePath settings) in
        let settings := setOutputFilePath ofp settings in
        match err with
        | Some err => (settings, Some err)
        | None =>
            let settings :=
              if String.eqb (Port settings) EmptyString
              then setPort (mapIndex DbDefaultPorts (DbType settings)) settings
              else settings in
            if String.eqb (PackageName settings) EmptyString
            then (settings, Some PackageNameEmpty)
            else (settings, err)
        end
    end.

(** ** The struct emitter *)

(** The variables of [createStructOfTable] that its loop over the columns
    updates.  [timeIndicator] counts columns, so the Go [int] never wraps. *)
Record ColumnsInfo : Type := {
  colBuffer : string;
  isNullable : bool;
  timeIndicator : Z;
  mastermindStructableAnnotation : string
}.

Definition initialColumnsInfo : ColumnsInfo :=
  {| colBuffer := EmptyString;
     isNullable := false;
     timeIndicator := 0;
     mastermindStructableAnnotation := EmptyString |}.

(** The test of lines 252-253: the column is an auto-generated primary key. *)
Definition isAutoPrimaryKey (column : Column) : bool :=
  strings.Contains (sql.String (ColumnDefault column)) "nextval"
  || (strings.Contains (ColumnKey column) "PRI"
      && strings.Contains (Extra column) "auto_increment").

(** The annotation a column gets when annotations are enabled
    (lines 251-257). *)
Definition stblAnnotation (column : Column) : string :=
  let isPk := EmptyString in
  let isPk :=
    if isAutoPrimaryKey column then ",PRIMARY_KEY,SERIAL,AUTO_INCREMENT"
    else isPk in
  " stbl:" +:+ DQ +:+ ColumnName column +:+ isPk +:+ DQ.

(** One iteration of the loop over [table.Columns] (lines 243-272). *)
Definition columnStep (settings : Settings) (vars : ColumnsInfo)
  (column : Column) : ColumnsInfo :=
  let colName := strings.Title (ColumnName column) in
  let colName :=
    if String.eqb (OutputFormat settings) "c" then CamelCaseString colName
    else colName in
  let '(colType, isTime) :=
    mapDbColumnTypeToGoType (DataType column) (IsNullable column) in
  let annotation :=
    if IsMastermindStructable settings || IsMastermindStructableOnly settings
    then stblAnnotation column
    else mastermindStructableAnnotation vars in
  let line :=
    if IsMastermindStructableOnly settings then
      TAB +:+ colName +:+ " " +:+ colType +:+ " " +:+ BQ
          +:+ annotation +:+ BQ +:+ NL
    else
      TAB +:+ colName +:+ " " +:+ colType +:+ " " +:+ BQ
          +:+ "db:" +:+ DQ +:+ ColumnName column +:+ DQ
          +:+ annotation +:+ BQ +:+ NL in
  {| colBuffer := colBuffer vars +:+ line;
     isNullable :=
       if String.eqb (IsNullable column) "YES" then true else isNullable vars;
     timeIndicator :=
       if isTime then timeIndicator vars + 1 else timeIndicator vars;
     mastermindStructableAnnotation := annotation |}.

Definition columnsLoop (settings : Settings) (columns : list Column)
  : ColumnsInfo :=
  fold_left (columnStep settings) columns initialColumnsInfo.

(** The condition of lines 275 and 310. *)
Definition recorderActive (settings : Settings) : bool :=
  IsMastermindStructableRecorder settings
  && (IsMastermindStructable settings || IsMastermindStructableOnly settings).

(** The name of the struct type (lines 280-283). *)
Definition structName (settings : Settings) (table : Table) : string :=
  let tableName :=
    strings.Title (Prefix settings +:+ TableName table +:+ Suffix settings) in
  if String.eqb (OutputFormat settings) "c" then CamelCaseString tableName
  else tableName.

(** What lines 295-315 write to the buffer: the import block, or nothing. *)
Definition importBlock (settings : Settings) (isNullable : bool)
  (timeIndicator : Z) : string :=
  if isNullable || (0 <? timeIndicator)
     || IsMastermindStructable settings || IsMastermindStructableOnly settings
  then
    "import (" +:+ NL
    +:+ (if isNullable then TAB +:+ DQ +:+ "database/sql" +:+ DQ +:+ NL
         else EmptyString)
    +:+ (if 0 <? timeIndicator then
           if isNullable
           then TAB +:+ NL +:+ DQ +:+ "github.com/lib/pq" +:+ DQ +:+ NL
           else TAB +:+ DQ +:+ "time" +:+ DQ +:+ NL
         else EmptyString)
    +:+ (if recorderActive settings
         then TAB +:+ NL +:+ DQ +:+ "github.com/Masterminds/structable" +:+ DQ
                  +:+ NL
         else EmptyString)
    +:+ ")" +:+ NL +:+ NL
  else EmptyString.

(** The content of [buffer] when it is handed to the formatter
    (lines 292-320). *)
Definition generatedSource (settings : Settings) (table : Table) : string :=
  let vars := columnsLoop settings (Columns table) in
  let colBuffer :=
    if recorderActive settings
    then colBuffer vars +:+ TAB +:+ NL +:+ "structable.Recorder" +:+ NL
    else colBuffer vars in
  "package " +:+ PackageName settings +:+ NL +:+ NL
  +:+ importBlock settings (isNullable vars) (timeIndicator vars)
  +:+ "type " +:+ structName settings table +:+ " struct {" +:+ NL
  +:+ colBuffer
  +:+ "}".

(** The path given to [os.Create] (lines 284-285). *)
Definition outputFileName (settings : Settings) (table : Table) : string :=
  let fileName := structName settings table +:+ ".go" in
  OutputFilePath settings +:+ fileName.

(** The package-level [settings] and the file system the run acts on. *)
Record State : Type := { settings : Settings; world : os.World }.

Section Run.

(** [gofmt]: the formatter behind [format.Source]; [None] is a failure. *)
Variable gofmt : string -> option string.

(** [format.Source(src)]: on failure the bytes returned are [nil]. *)
Definition format_Source (src : string) : string * error :=
  match gofmt src with
  | Some formatted => (formatted, None)
  | None => (EmptyString, Some (FormatError src))
  end.

(** [createStructOfTable(table)]. *)
Definition createStructOfTable (st : State) (table : Table) : State * error :=
  let '(w, outFile, err) :=
    os.Create (world st) (outputFileName (settings st) table) in
  match err with
  | Some err => ({| settings := settings st; world := w |}, Some err)
  | None =>
      let buffer := generatedSource (settings st) table in
      let '(formatedFile, _) := format_Source buffer in
      let w := os.Write w outFile formatedFile in
      ({| settings := settings st; world := w |}, err)
  end.

(** The loop of [run] over the tables (lines 206-226). *)
Fixpoint runTables (db : Database) (st : State) (tables : list Table)
  : State * error :=
  match tables with
  | [] => (st, None)
  | table :: rest =>
      let '(table, err) := GetColumnsOfTable table in
      match err with
      | Some err => (st, Some err)
      | None =>
          let '(st, err) := createStructOfTable st table in
          match err with
          | Some err => (st, Some err)
          | None => runTables db st rest
          end
      end
  end.

(** [run(db)]. *)
Definition run (db : Database) (st : State) : State * error :=
  let '(tables, err) := GetTables in
  match err with
  | Some err => (st, Some err)
  | None =>
      match PrepareGetColumnsOfTableStmt with
      | Some err => (st, Some err)
      | None => runTables db st tables
      end
  end.

(** [connect]: opens and pings the database for the settings. *)
Variable connect : Settings -> error.
(** The two implementations of [Database], built from the settings. *)
Variables MySQLDatabase PostgreDatabase : Settings -> Database.

(** [Run(s)]: the state holds the settings behind [s] after the call. *)
Definition Run (w : os.World) (s : Settings) : State * error :=
  let '(s, err) := VerifySettings w s in
  match err with
  | Some err => ({| settings := s; world := w |}, Some err)
  | None =>
      let st := {| settings := s; world := w |} in
      match connect s with
      | Some err => (st, Some err)
      | None =>
          let database :=
            if String.eqb (DbType s) "mysql" then MySQLDatabase s
            else PostgreDatabase s in
          run database st
      end
  end.

End Run.


(** ** The data source name *)

(** [prepareDataSourceName()]: the verb [%v] prints a string as it is. *)
Definition prepareDataSourceName (settings : Settings) : string :=
  if String.eqb (DbType settings) "mysql" then
    User settings +:+ ":" +:+ Pswd settings +:+ "@tcp(" +:+ Host settings
    +:+ ":" +:+ Port settings +:+ ")/" +:+ DbName settings
  else
    "host=" +:+ Host settings +:+ " port=" +:+ Port settings
    +:+ " user=" +:+ User settings +:+ " dbname=" +:+ DbName settings
    +:+ " password=" +:+ Pswd settings +:+ " sslmode=disable".

(** ** Package [unicode/utf8] of the Go standard library *)

Module utf8.

Definition RuneError : N := 65533.
Definition MaxRune : N := 1114111.

(** [utf8.ValidRune(r)]: not a surrogate half and not above [MaxRune]. *)
Definition ValidRune (r : N) : bool :=
  ((r <? 55296) || ((57343 <? r) && (r <=? MaxRune)))%N.

(** [utf8.EncodeRune(p, r)]: the bytes written; a rune that is not valid is
    written as [RuneError]. *)
Definition EncodeRune (r : N) : string :=
  if (r <=? 127)%N then String (ascii_of_N r) EmptyString
  else if (r <=? 2047)%N then
    String (ascii_of_N (N.lor 192 (N.shiftr r 6)))
      (String (ascii_of_N (N.lor 128 (N.land r 63))) EmptyString)
  else
    let r := if ValidRune r then r else RuneError in
    if (r <=? 65535)%N then
      String (ascii_of_N (N.lor 224 (N.shiftr r 12)))
        (String (ascii_of_N (N.lor 128 (N.land (N.shiftr r 6) 63)))
           (String (ascii_of_N (N.lor 128 (N.land r 63))) EmptyString))
    else
      String (ascii_of_N (N.lor 240 (N.shiftr r 18)))
        (String (ascii_of_N (N.lor 128 (N.land (N.shiftr r 12) 63)))
           (String (ascii_of_N (N.lor 128 (N.land (N.shiftr r 6) 63)))
              (String (ascii_of_N (N.lor 128 (N.land r 63))) EmptyString))).

(** The table [first] of the decoder: the length of the sequence the byte
    starts, 1 for ASCII, 0 for a byte that starts none. *)
Definition leadSize (s0 : ascii) : nat :=
  let n := N_of_ascii s0 in
  if (n <=? 127)%N then 1%nat
  else if ((194 <=? n) && (n <=? 223))%N then 2%nat
  else if ((224 <=? n) && (n <=? 239))%N then 3%nat
  else if ((240 <=? n) && (n <=? 244))%N then 4%nat
  else 0%nat.

(** The table [acceptRanges]: the second byte a lead byte accepts. *)
Definition acceptsSecond (s0 s1 : ascii) : bool :=
  let n0 := N_of_ascii s0 in
  let n1 := N_of_ascii s1 in
  let lo := if (n0 =? 224)%N then 160%N
            else if (n0 =? 240)%N then 144%N else 128%N in
  let hi := if (n0 =? 237)%N then 159%N
            else if (n0 =? 244)%N then 143%N else 191%N in
  ((lo <=? n1) && (n1 <=? hi))%N.

Definition continuation (b : ascii) : bool :=
  ((128 <=? N_of_ascii b) && (N_of_ascii b <=? 191))%N.

Definition rune2 (s0 s1 : ascii) : N :=
  N.lor (N.shiftl (N.land (N_of_ascii s0) 31) 6) (N.land (N_of_ascii s1) 63).

Definition rune3 (s0 s1 s2 : ascii) : N :=
  N.lor (N.shiftl (N.land (N_of_ascii s0) 15) 12)
    (N.lor (N.shiftl (N.land (N_of_ascii s1) 63) 6)
       (N.land (N_of_ascii s2) 63)).

Definition rune4 (s0 s1 s2 s3 : ascii) : N :=
  N.lor (N.shiftl (N.land (N_of_ascii s0) 7) 18)
    (N.lor (N.shiftl (N.land (N_of_ascii s1) 63) 12)
       (N.lor (N.shiftl (N.land (N_of_ascii s2) 63) 6)
          (N.land (N_of_ascii s3) 63))).

(** The runes a [for range s] loop yields, each by [DecodeRuneInString]: a
    byte that starts no valid sequence is read as [RuneError], one byte
    wide. *)
Fixpoint runes (s : string) : list N :=
  match s with
  | EmptyString => []
  | String s0 rest1 =>
      match leadSize s0 with
      | 1%nat => N_of_ascii s0 :: runes rest1
      | 2%nat =>
          match rest1 with
          | String s1 rest2 =>
              if acceptsSecond s0 s1 then rune2 s0 s1 :: runes rest2
              else RuneError :: runes rest1
          | _ => RuneError :: runes rest1
          end
      | 3%nat =>
          match rest1 with
          | String s1 (String s2 rest3) =>
              if acceptsSecond s0 s1 && continuation s2
              then rune3 s0 s1 s2 :: runes rest3
              else RuneError :: runes rest1
          | _ => RuneError :: runes rest1
          end
      | 4%nat =>
          match rest1 with
          | String s1 (String s2 (String s3 rest4)) =>
              if acceptsSecond s0 s1 && continuation s2 && continuation s3
              then rune4 s0 s1 s2 s3 :: runes rest4
              else RuneError :: runes rest1
          | _ => RuneError :: runes rest1
          end
      | _ => RuneError :: runes rest1
      end
  end.

(** The bytes of a sequence of runes. *)
Fixpoint encodeRunes (rs : list N) : string :=
  match rs with
  | [] => EmptyString
  | r :: rest => EncodeRune r +:+ encodeRunes rest
  end.

End utf8.

(** ** Package [unicode]: its tables above U+007F as parameters *)

Module unicode.

(** The tables of package [unicode] for the runes above U+007F: the title
    case mapping and the letter, digit and space properties. *)
Record Tables : Type := {
  toTitle : N -> N;
  isLetter : N -> bool;
  isDigit : N -> bool;
  isSpace : N -> bool
}.

(** [unicode.ToTitle(r)]. *)
Definition ToTitle (t : Tables) (r : N) : N :=
  if (r <=? 127)%N then
    if ((97 <=? r) && (r <=? 122))%N then (r - 32)%N else r
  else toTitle t r.

End unicode.

(** ** [strings.Title] over every byte string *)

Module stringsUTF8.

(** [isSeparator(r)] of package [strings]. *)
Definition isSeparator (t : unicode.Tables) (r : N) : bool :=
  if (r <=? 127)%N then
    if ((48 <=? r) && (r <=? 57))%N then false
    else if ((97 <=? r) && (r <=? 122))%N then false
    else if ((65 <=? r) && (r <=? 90))%N then false
    else if (r =? 95)%N then false
    else true
  else if unicode.isLetter t r || unicode.isDigit t r then false
  else unicode.isSpace t r.

(** The closure [Title] hands to [Map], run over the runes of the string. *)
Fixpoint titleRunes (t : unicode.Tables) (prev : N) (rs : list N) : list N :=
  match rs with
  | [] => []
  | r :: rest =>
      (if isSeparator t prev then unicode.ToTitle t r else r)
        :: titleRunes t r rest
  end.

(** [strings.Title(s)]: [Map] reads the runes of [s] and writes the mapped
    runes in UTF-8; an invalid byte is read as [RuneError] and written as
    its three bytes.  [prev] starts as a space. *)
Definition Title (t : unicode.Tables) (s : string) : string :=
  utf8.encodeRunes (titleRunes t 32 (utf8.runes s)).

End stringsUTF8.
(** ** Vocabulary of the properties *)

Definition nullableGoTypes : list string :=
  ["sql.NullInt64"; "sql.NullFloat64"; "sql.NullString"; "pq.NullTime";
   "sql.NullBool"].

Definition plainGoTypes : list string :=
  ["int"; "float64"; "string"; "time.Time"; "bool"].

(** The raw types some [case] of the mapper names. *)
Definition recognizedTypes : list string :=
  integerTypes ++ floatTypes ++ textTypes ++ temporalTypes ++ booleanTypes.


Definition annotationsEnabled (settings : Settings) : bool :=
  IsMastermindStructable settings || IsMastermindStructableOnly settings.

(** A nullable column: its flag is "YES". *)
Definition columnNullable (column : Column) : bool :=
  String.eqb (IsNullable column) "YES".

(** A temporal column: its raw type is of the temporal family. *)
Definition columnTemporal (column : Column) : bool :=
  case (DataType column) temporalTypes.

Definition anyNullable (table : Table) : bool :=
  existsb columnNullable (Columns table).

Definition anyTemporal (table : Table) : bool :=
  existsb columnTemporal (Columns table).

(** The import block of the file emitted for a table. *)
Definition tableImportBlock (settings : Settings) (table : Table) : string :=
  let vars := columnsLoop settings (Columns table) in
  importBlock settings (isNullable vars) (timeIndicator vars).

Definition hasImportBlock (settings : Settings) (table : Table) : bool :=
  negb (String.eqb (tableImportBlock settings table) EmptyString).

(** An import line as it stands in the block: the quoted package path. *)
Definition importOf (package : string) : string := DQ +:+ package +:+ DQ.

Definition roleMarkers : string := ",PRIMARY_KEY,SERIAL,AUTO_INCREMENT".

(** The detection of an auto-generated primary key as section 4.1 words it,
    by dialect: on MySQL the key role and the extra attribute, on Postgres
    the default expression. *)
Definition specDetectsAutoPrimaryKey (dbType : string) (column : Column)
  : bool :=
  if String.eqb dbType "mysql"
  then strings.Contains (ColumnKey column) "PRI"
       && strings.Contains (Extra column) "auto_increment"
  else strings.Contains (sql.String (ColumnDefault column)) "nextval".

(** The path of the emitted file as section 6 words it:
    [<outputDirectory>/<NormalizedTypeName>.<ext>]. *)
Definition specOutputPath (outputDirectory : string) (settings : Settings)
  (table : Table) : string :=
  outputDirectory +:+ "/" +:+ structName settings table +:+ ".go".

(** ** Sample inputs *)

Definition noDefault : sql.NullString :=
  {| sql.String := EmptyString; sql.Valid := false |}.

Definition defaultOf (expression : string) : sql.NullString :=
  {| sql.String := expression; sql.Valid := true |}.

(** The table of the round trip of section 8, as Postgres reports it. *)
Definition usersTable : Table :=
  {| TableName := "users";
     Columns :=
       [ {| ColumnName := "id"; DataType := "integer"; IsNullable := "NO";
            ColumnDefault := defaultOf "nextval('users_id_seq'::regclass)";
            ColumnKey := EmptyString; Extra := EmptyString |};
         {| ColumnName := "email"; DataType := "varchar"; IsNullable := "YES";
            ColumnDefault := noDefault;
            ColumnKey := EmptyString; Extra := EmptyString |};
         {| ColumnName := "created_at"; DataType := "timestamp";
            IsNullable := "NO"; ColumnDefault := noDefault;
            ColumnKey := EmptyString; Extra := EmptyString |} ] |}.

(** A table with no nullable and no temporal column. *)
Definition tagsTable : Table :=
  {| TableName := "tags";
     Columns :=
       [ {| ColumnName := "id"; DataType := "integer"; IsNullable := "NO";
            ColumnDefault := noDefault;
            ColumnKey := EmptyString; Extra := EmptyString |};
         {| ColumnName := "label"; DataType := "varchar"; IsNullable := "NO";
            ColumnDefault := noDefault;
            ColumnKey := EmptyString; Extra := EmptyString |} ] |}.

(** A table with a temporal column and no nullable column. *)
Definition eventsTable : Table :=
  {| TableName := "events";
     Columns :=
       [ {| ColumnName := "at"; DataType := "timestamp"; IsNullable := "NO";
            ColumnDefault := noDefault;
            ColumnKey := EmptyString; Extra := EmptyString |} ] |}.

(** A MySQL (MariaDB) column that draws its default from a sequence and is
    no key. *)
Definition ticketColumn : Column :=
  {| ColumnName := "ticket"; DataType := "bigint"; IsNullable := "NO";
     ColumnDefault := defaultOf "nextval(`shop`.`ticket_seq`)";
     ColumnKey := EmptyString; Extra := EmptyString |}.

(** The default settings with the given dialect, output format and
    annotation flags. *)
Definition settingsWith (dbType outputFormat : string)
  (structable structableOnly recorder : bool) : Settings :=
  {| Verbose := Verbose NewSettings; DbType := dbType;
     User := User NewSettings; Pswd := Pswd NewSettings;
     DbName := DbName NewSettings; Schema := Schema NewSettings;
     Host := Host NewSettings; Port := Port NewSettings;
     OutputFilePath := OutputFilePath NewSettings;
     OutputFormat := outputFormat; PackageName := PackageName NewSettings;
     Prefix := Prefix NewSettings; Suffix := Suffix NewSettings;
     IsMastermindStructable := structable;
     IsMastermindStructableOnly := structableOnly;
     IsMastermindStructableRecorder := recorder |}.

(** A table whose name is no Go identifier once titled. *)
Definition orderItemsTable : Table :=
  {| TableName := "order-items";
     Columns :=
       [ {| ColumnName := "id"; DataType := "integer"; IsNullable := "NO";
            ColumnDefault := noDefault;
            ColumnKey := EmptyString; Extra := EmptyString |} ] |}.

(** A file system with the default output directory in the working
    directory. *)
Definition homeWorld : os.World :=
  {| os.wd := "/home/user";
     os.nodes :=
       <["/" := os.Directory]>
         (<["/home" := os.Directory]>
            (<["/home/user" := os.Directory]>
               (<["/home/user/output" := os.Directory]> ∅))) |}.

(** A formatter that returns its input, and one that rejects it. *)
Definition acceptingFormatter : string -> option string := Some.
Definition rejectingFormatter : string -> option string := fun _ => None.

(** A database that connects and whose catalog holds the table [users]. *)
Definition connected : Settings -> error := fun _ => None.

Definition usersCatalog : Database :=
  {| GetTables := ([ {| TableName := "users"; Columns := [] |} ], None);
     PrepareGetColumnsOfTableStmt := None;
     GetColumnsOfTable := fun table =>
       ({| TableName := TableName table; Columns := Columns usersTable |},
        None) |}.

(** The configuration fields other than the port and the output path
    agree. *)
Definition sameOtherFields (a b : Settings) : Prop :=
  Verbose a = Verbose b /\ DbType a = DbType b /\ User a = User b
  /\ Pswd a = Pswd b /\ DbName a = DbName b /\ Schema a = Schema b
  /\ Host a = Host b /\ OutputFormat a = OutputFormat b
  /\ PackageName a = PackageName b /\ Prefix a = Prefix b
  /\ Suffix a = Suffix b
  /\ IsMastermindStructable a = IsMastermindStructable b
  /\ IsMastermindStructableOnly a = IsMastermindStructableOnly b
  /\ IsMastermindStructableRecorder a = IsMastermindStructableRecorder b.

(** A string of alphanumeric characters only. *)
Fixpoint allAlphanumeric (s : string) : bool :=
  match s with
  | EmptyString => true
  | String c rest => isAlphanumeric c && allAlphanumeric rest
  end.

(** The last byte of the path is a separator. *)
Fixpoint endsWithSeparator (path : string) : bool :=
  match path with
  | EmptyString => false
  | String c EmptyString => Ascii.eqb c filepath.Separator
  | String _ rest => endsWithSeparator rest
  end.

Fixpoint hasSeparator (path : string) : bool :=
  match path with
  | EmptyString => false
  | String c rest => Ascii.eqb c filepath.Separator || hasSeparator rest
  end.

(** An element [Clean] keeps: not empty and free of separators. *)
Definition keptElement (e : string) : Prop :=
  e <> EmptyString /\ hasSeparator e = false.

(** ** Vocabulary of the further properties *)

(** The name of the field of a column (lines 243-246). *)
Definition fieldName (settings : Settings) (column : Column) : string :=
  if String.eqb (OutputFormat settings) "c"
  then CamelCaseString (strings.Title (ColumnName column))
  else strings.Title (ColumnName column).

(** The tag of the field of a column: the [db] key unless annotation-only
    mode is on, then the stbl annotation if annotations are enabled. *)
Definition fieldTags (settings : Settings) (column : Column) : string :=
  (if IsMastermindStructableOnly settings then EmptyString
   else "db:" +:+ DQ +:+ ColumnName column +:+ DQ)
  +:+ (if annotationsEnabled settings then stblAnnotation column
       else EmptyString).

(** The line of a column in the struct. *)
Definition fieldLine (settings : Settings) (column : Column) : string :=
  TAB +:+ fieldName settings column +:+ " "
  +:+ fst (mapDbColumnTypeToGoType (DataType column) (IsNullable column))
  +:+ " " +:+ BQ +:+ fieldTags settings column +:+ BQ +:+ NL.

(** The line that embeds the recorder, when it is active. *)
Definition recorderLine (settings : Settings) : string :=
  if recorderActive settings
  then TAB +:+ NL +:+ "structable.Recorder" +:+ NL
  else EmptyString.

Definition joinLines (lines : list string) : string :=
  fold_right String.append EmptyString lines.

(** The number of positions of [s] at which [substr] starts. *)
Fixpoint countOccurrences (s substr : string) : nat :=
  ((if String.prefix substr s then 1 else 0)
   + match s with
     | EmptyString => 0
     | String _ s' => countOccurrences s' substr
     end)%nat.

Definition boolCount (b : bool) : nat := if b then 1%nat else 0%nat.

(** A plain path element: not empty, not [.], not [..], free of
    separators.  These are the elements of a clean rooted path. *)
Definition plainElement (e : string) : Prop :=
  e <> EmptyString /\ e <> "." /\ e <> ".." /\ hasSeparator e = false.

(** The output path of the settings names a directory of the file system. *)
Definition outputDirectoryExists (w : os.World) (s : Settings) : Prop :=
  OutputFilePath s <> EmptyString
  /\ os.nodes w !! filepath.Abs (os.wd w) (OutputFilePath s)
     = Some os.Directory.

(** The settings [VerifySettings] leaves once its three checks have passed:
    the output path made absolute, an empty port replaced by the default
    port of the dialect. *)
Definition preparedSettings (w : os.World) (s : Settings) : Settings :=
  let s1 :=
    setOutputFilePath (filepath.Abs (os.wd w) (OutputFilePath s +:+ "/")) s in
  if String.eqb (Port s) EmptyString
  then setPort (mapIndex DbDefaultPorts (DbType s)) s1
  else s1.

(** The file [run] emits for a table of the catalog: the absolute path of
    the output file name of the table once its columns are fetched. *)
Definition emittedPath (db : Database) (st : State) (table : Table) : string :=
  filepath.Abs (os.wd (world st))
    (outputFileName (settings st) (fst (GetColumnsOfTable table))).

(** The text [run] writes for a table of the catalog. *)
Definition emittedContent (gofmt : string -> option string) (db : Database)
  (st : State) (table : Table) : string :=
  fst (format_Source gofmt
         (generatedSource (settings st) (fst (GetColumnsOfTable table)))).

(** The facts about the title case mapping of package [unicode] that the
    idempotence of [Title] rests on: above U+007F it maps valid runes to
    valid runes, maps its results to themselves, and never turns a
    separator into a rune that is none or the other way round. *)
Definition titleCaseStable (t : unicode.Tables) : Prop :=
  forall r : N,
    (127 < r)%N ->
    (utf8.ValidRune r = true -> utf8.ValidRune (unicode.toTitle t r) = true)
    /\ unicode.ToTitle t (unicode.toTitle t r) = unicode.toTitle t r
    /\ stringsUTF8.isSeparator t (unicode.toTitle t r)
       = stringsUTF8.isSeparator t r.

(** The tables of package [unicode] on Latin-1, U+0080 to U+00FF; above
    U+00FF these tables know no letter, no space and no case. *)
Definition latin1Tables : unicode.Tables :=
  {| unicode.toTitle := fun r =>
       if ((224 <=? r) && (r <=? 254) && negb (r =? 247))%N then (r - 32)%N
       else if (r =? 255)%N then 376%N
       else if (r =? 181)%N then 924%N
       else r;
     unicode.isLetter := fun r =>
       ((r =? 170) || (r =? 181) || (r =? 186)
        || ((192 <=? r) && (r <=? 214))
        || ((216 <=? r) && (r <=? 246))
        || ((248 <=? r) && (r <=? 255)))%N;
     unicode.isDigit := fun _ => false;
     unicode.isSpace := fun r => ((r =? 133) || (r =? 160))%N |}.

(** A string of ASCII bytes only. *)
Fixpoint allASCII (s : string) : bool :=
  match s with
  | EmptyString => true
  | String c rest => (N_of_ascii c <=? 127)%N && allASCII rest
  end.

(** [p] holds of the [2^k] numbers from [lo] on. *)
Fixpoint allFrom (k : nat) (lo : N) (p : N -> bool) : bool :=
  match k with
  | O => p lo
  | S k' => allFrom k' lo p && allFrom k' (lo + 2 ^ N.of_nat k')%N p
  end.

(** [p] holds of every byte. *)
Definition allBytes (p : ascii -> bool) : bool :=
  allFrom 8 0 (fun n => p (ascii_of_N n)).

(** Decoding undoes encoding, for one rune. *)
Definition encodingDecodes (r : N) : bool :=
  if utf8.ValidRune r then
    match utf8.EncodeRune r with
    | String a EmptyString =>
        Nat.eqb (utf8.leadSize a) 1 && (N_of_ascii a =? r)%N
    | String a (String b EmptyString) =>
        Nat.eqb (utf8.leadSize a) 2 && utf8.acceptsSecond a b
        && (utf8.rune2 a b =? r)%N
    | String a (String b (String c EmptyString)) =>
        Nat.eqb (utf8.leadSize a) 3 && utf8.acceptsSecond a b
        && utf8.continuation c && (utf8.rune3 a b c =? r)%N
    | String a (String b (String c (String d EmptyString))) =>
        Nat.eqb (utf8.leadSize a) 4 && utf8.acceptsSecond a b
        && utf8.continuation c && utf8.continuation d
        && (utf8.rune4 a b c d =? r)%N
    | _ => false
    end
  else true.

(** [p] holds of every continuation byte, 0x80 to 0xBF. *)
Definition allContinuation (p : ascii -> bool) : bool :=
  allFrom 6 128 (fun n => p (ascii_of_N n)).

(** Every sequence of one, two or three bytes the decoder accepts is the
    sequence of a valid rune. *)
Definition decodesValid (s0 : ascii) : bool :=
  match utf8.leadSize s0 with
  | 1%nat => utf8.ValidRune (N_of_ascii s0)
  | 2%nat =>
      allBytes (fun s1 =>
        if utf8.acceptsSecond s0 s1 then utf8.ValidRune (utf8.rune2 s0 s1)
        else true)
  | 3%nat =>
      allBytes (fun s1 =>
        if utf8.acceptsSecond s0 s1 then
          allContinuation (fun s2 => utf8.ValidRune (utf8.rune3 s0 s1 s2))
        else true)
  | _ => true
  end.

(** The facts of [titleCaseStable], and validity, for one ASCII rune; the
    tables are not consulted there. *)
Definition asciiTitleStable (t : unicode.Tables) (r : N) : bool :=
  (unicode.ToTitle t (unicode.ToTitle t r) =? unicode.ToTitle t r)%N
  && Bool.eqb (stringsUTF8.isSeparator t (unicode.ToTitle t r))
       (stringsUTF8.isSeparator t r)
  && utf8.ValidRune (unicode.ToTitle t r).

(** The facts of [titleCaseStable] for one rune of the Latin-1 tables. *)
Definition latin1Stable (r : N) : bool :=
  if (r <=? 127)%N then true
  else
    implb (utf8.ValidRune r) (utf8.ValidRune (unicode.toTitle latin1Tables r))
    && (unicode.ToTitle latin1Tables (unicode.toTitle latin1Tables r)
        =? unicode.toTitle latin1Tables r)%N
    && Bool.eqb
         (stringsUTF8.isSeparator latin1Tables (unicode.toTitle latin1Tables r))
         (stringsUTF8.isSeparator latin1Tables r).

(** The bytes of U+00E9 followed by ASCII text, and a string that starts
    with a byte that is no UTF-8. *)
Definition elan : string :=
  String (ascii_of_nat 195) (String (ascii_of_nat 169) "lan vital").

Definition brokenName : string := String (ascii_of_nat 255) "a b".

(** The path has no [..] element: cleaning it lexically names the node the
    operating system resolves it to. *)
Definition noParentElement (path : string) : bool :=
  negb (existsb (String.eqb "..") (filepath.elements path)).

(** The node at [path] is a regular file. *)
Definition isRegular (w : os.World) (path : string) : bool :=
  match os.nodes w !! path with
  | Some (os.Regular _) => true
  | _ => false
  end.

(** The directories above a clean absolute path by [filepath.Dir], the
    nearest first; the root repeats. *)
Fixpoint dirsAbove (n : nat) (path : string) : list string :=
  match n with
  | O => []
  | S n' => filepath.Dir path :: dirsAbove n' (filepath.Dir path)
  end.

(** The last element of the path is a name: the path does not end in a
    separator or in a [.] element, which ask for a directory. *)
Definition endsInName (path : string) : bool :=
  let e := List.last (filepath.elements path) EmptyString in
  negb (String.eqb e EmptyString || String.eqb e ".").

(** The path runs through directories only: no node above it is a regular
    file, nor is its own node when the path asks for a directory.  On a
    path through a regular file the system call behind [os.Stat] fails with
    an error that [os.IsNotExist] does not recognize, and line 149 reads
    the mode of a nil [info]. *)
Definition throughDirectories (w : os.World) (path : string) : bool :=
  let target := filepath.Abs (os.wd w) path in
  forallb (fun dir => negb (isRegular w dir))
    (dirsAbove (String.length target) target)
  && (endsInName path || negb (isRegular w target)).

(** The sample file system with a regular file [notes] in the working
    directory. *)
Definition notesWorld : os.World :=
  {| os.wd := os.wd homeWorld;
     os.nodes :=
       <["/home/user/notes" := os.Regular "to do"]> (os.nodes homeWorld) |}.
(** * Properties *)

(** ** The type mapper *)

Lemma case_In tag labels : case tag labels = true <-> In tag labels.
Proof.
  unfold case. rewrite existsb_exists. split.
  - intros (l & Hin & Heq). apply String.eqb_eq in Heq. now subst.
  - intros Hin. exists tag. split; [exact Hin | apply String.eqb_refl].
Qed.

Lemma case_not_In tag labels : ~ In tag labels -> case tag labels = false.
Proof.
  intros Hn. destruct (case tag labels) eqn:E; [|reflexivity].
  apply case_In in E. contradiction.
Qed.

Ltac split_cases :=
  repeat match goal with
    | |- context [if case ?t ?l then _ else _] => destruct (case t l) eqn:?
    end.

Example mapper_integer_no :
  mapDbColumnTypeToGoType "integer" "NO" = ("int", false).
Proof. reflexivity. Qed.

Example mapper_timestamp_yes :
  mapDbColumnTypeToGoType "timestamp" "YES" = ("pq.NullTime", true).
Proof. reflexivity. Qed.

Example mapper_json_no :
  mapDbColumnTypeToGoType "json" "NO" = ("sql.NullString", false).
Proof. reflexivity. Qed.

(** C3: the type mapper is total and deterministic, every pair of a raw type
    and a nullability flag has exactly one result, and with the flag "YES"
    the field type returned is one of the nullable types and none of the plain
    ones. *)
Theorem mapDbColumnTypeToGoType_total_nullable :
  forall dbDataType isNullable : string,
    (exists! result : string * bool,
        mapDbColumnTypeToGoType dbDataType isNullable = result)
    /\ In (fst (mapDbColumnTypeToGoType dbDataType "YES")) nullableGoTypes
    /\ ~ In (fst (mapDbColumnTypeToGoType dbDataType "YES")) plainGoTypes.
Proof.
  intros dbDataType isNullable. split.
  - exists (mapDbColumnTypeToGoType dbDataType isNullable).
    split; [reflexivity | intros r Hr; exact Hr].
  - unfold mapDbColumnTypeToGoType. split_cases; cbn.
    all: split; [tauto | intros H; intuition discriminate].
Qed.

(** C5: a raw type that no case of the mapper names maps to the
    nullable-string type, not temporal, whatever the nullability flag. *)
Theorem mapDbColumnTypeToGoType_unrecognized :
  forall dbDataType isNullable : string,
    ~ In dbDataType recognizedTypes ->
    mapDbColumnTypeToGoType dbDataType isNullable = ("sql.NullString", false).
Proof.
  intros dbDataType isNullable Hn.
  unfold recognizedTypes in Hn. repeat rewrite in_app_iff in Hn.
  unfold mapDbColumnTypeToGoType.
  rewrite !case_not_In by tauto. reflexivity.
Qed.

Lemma mapDbColumnTypeToGoType_unrecognized_witness :
  ~ In "json" recognizedTypes
  /\ mapDbColumnTypeToGoType "json" "NO" = ("sql.NullString", false)
  /\ mapDbColumnTypeToGoType "json" "YES" = ("sql.NullString", false).
Proof.
  assert (Hn : ~ In "json" recognizedTypes).
  { cbn. intros H. intuition discriminate. }
  split; [exact Hn|].
  split; apply mapDbColumnTypeToGoType_unrecognized; exact Hn.
Defined.

(** C10: the flag is compared with the exact string "YES": under any other
    flag, "NO", the empty string or lower-case "yes" alike, the mapper
    returns what it returns under "NO", and for a raw type of a recognized
    family that is the plain, non-nullable type of that very family: int for
    the integer family, float64 for the floating family, string for the text
    family, time.Time (temporal) for the temporal family, bool for boolean. *)
Theorem mapDbColumnTypeToGoType_flag_exact :
  forall dbDataType isNullable : string,
    isNullable <> "YES" ->
    mapDbColumnTypeToGoType dbDataType isNullable
    = mapDbColumnTypeToGoType dbDataType "NO"
    /\ (In dbDataType integerTypes ->
        mapDbColumnTypeToGoType dbDataType isNullable = ("int", false))
    /\ (In dbDataType floatTypes ->
        mapDbColumnTypeToGoType dbDataType isNullable = ("float64", false))
    /\ (In dbDataType textTypes ->
        mapDbColumnTypeToGoType dbDataType isNullable = ("string", false))
    /\ (In dbDataType temporalTypes ->
        mapDbColumnTypeToGoType dbDataType isNullable = ("time.Time", true))
    /\ (In dbDataType booleanTypes ->
        mapDbColumnTypeToGoType dbDataType isNullable = ("bool", false)).
Proof.
  intros dbDataType isNullable Hn.
  apply String.eqb_neq in Hn.
  unfold mapDbColumnTypeToGoType. rewrite Hn. cbn [String.eqb Ascii.eqb].
  split; [split_cases; reflexivity|].
  repeat split; intros Hin; cbn in Hin;
    repeat destruct Hin as [Hin|Hin]; try contradiction;
    subst dbDataType; reflexivity.
Qed.

Lemma mapDbColumnTypeToGoType_flag_exact_witness :
  ("yes" <> "YES"
   /\ mapDbColumnTypeToGoType "integer" "yes" = ("int", false)
   /\ mapDbColumnTypeToGoType "integer" "yes"
      = mapDbColumnTypeToGoType "integer" "NO")
  /\ (EmptyString <> "YES"
      /\ mapDbColumnTypeToGoType "timestamp" EmptyString
         = ("time.Time", true))
  /\ ("NO" <> "YES"
      /\ mapDbColumnTypeToGoType "varchar" "NO" = ("string", false)).
Proof.
  assert (Hyes : "yes" <> "YES") by discriminate.
  assert (Hempty : EmptyString <> "YES") by discriminate.
  assert (Hno : "NO" <> "YES") by discriminate.
  destruct (mapDbColumnTypeToGoType_flag_exact "integer" "yes" Hyes)
    as (Heq & Hint & _).
  destruct (mapDbColumnTypeToGoType_flag_exact "timestamp" EmptyString Hempty)
    as (_ & _ & _ & _ & Htime & _).
  destruct (mapDbColumnTypeToGoType_flag_exact "varchar" "NO" Hno)
    as (_ & _ & _ & Htext & _).
  split; [|split].
  - split; [exact Hyes|]. split; [|exact Heq]. apply Hint. cbn. tauto.
  - split; [exact Hempty|]. apply Htime. cbn. tauto.
  - split; [exact Hno|]. apply Htext. cbn. tauto.
Defined.

(** ** The loop over the columns *)

Lemma temporal_not_other dbDataType :
  case dbDataType temporalTypes = true ->
  case dbDataType integerTypes = false
  /\ case dbDataType floatTypes = false
  /\ case dbDataType textTypes = false.
Proof.
  intros H. apply case_In in H. cbn in H.
  repeat destruct H as [H|H]; try contradiction; subst; repeat split; reflexivity.
Qed.

(** The flag the mapper returns tells the temporal family. *)
Lemma mapDbColumnTypeToGoType_isTime dbDataType isNullable :
  snd (mapDbColumnTypeToGoType dbDataType isNullable)
  = case dbDataType temporalTypes.
Proof.
  destruct (case dbDataType temporalTypes) eqn:Ht.
  - destruct (temporal_not_other _ Ht) as (Hi & Hf & Hx).
    unfold mapDbColumnTypeToGoType. rewrite Hi, Hf, Hx, Ht. reflexivity.
  - unfold mapDbColumnTypeToGoType. rewrite Ht. split_cases; reflexivity.
Qed.

Lemma columnStep_isNullable settings vars column :
  isNullable (columnStep settings vars column)
  = columnNullable column || isNullable vars.
Proof.
  unfold columnStep, columnNullable.
  destruct (mapDbColumnTypeToGoType _ _) as [colType isTime]. cbn.
  destruct (String.eqb _ _); reflexivity.
Qed.

Lemma columnStep_timeIndicator settings vars column :
  timeIndicator (columnStep settings vars column)
  = timeIndicator vars + (if columnTemporal column then 1 else 0).
Proof.
  unfold columnStep, columnTemporal.
  rewrite <- (mapDbColumnTypeToGoType_isTime _ (IsNullable column)).
  destruct (mapDbColumnTypeToGoType _ _) as [colType isTime]. cbn.
  destruct isTime; lia.
Qed.

Lemma loop_isNullable settings columns : forall vars,
  isNullable (fold_left (columnStep settings) columns vars)
  = isNullable vars || existsb columnNullable columns.
Proof.
  induction columns as [|column columns IH]; intros vars;
    cbn [fold_left existsb].
  - now rewrite orb_false_r.
  - rewrite IH, columnStep_isNullable.
    destruct (columnNullable column), (isNullable vars); reflexivity.
Qed.

(** The counter stays between its start and the number of columns read, so
    the Go [int] it stands for does not wrap. *)
Lemma loop_timeIndicator_bounds settings columns : forall vars,
  timeIndicator vars
  <= timeIndicator (fold_left (columnStep settings) columns vars)
  <= timeIndicator vars + Z.of_nat (List.length columns).
Proof.
  induction columns as [|column columns IH]; intros vars.
  - cbn. lia.
  - cbn [fold_left List.length]. specialize (IH (columnStep settings vars column)).
    rewrite columnStep_timeIndicator in IH.
    destruct (columnTemporal column); lia.
Qed.

Lemma loop_timeIndicator settings columns : forall vars,
  0 <= timeIndicator vars ->
  (0 <? timeIndicator (fold_left (columnStep settings) columns vars))
  = (0 <? timeIndicator vars) || existsb columnTemporal columns.
Proof.
  induction columns as [|column columns IH]; intros vars Hpos;
    cbn [fold_left existsb].
  - now rewrite orb_false_r.
  - pose proof (columnStep_timeIndicator settings vars column) as Hstep.
    rewrite IH, Hstep by (rewrite Hstep; destruct (columnTemporal column); lia).
    destruct (columnTemporal column).
    + replace (0 <? timeIndicator vars + 1) with true
        by (symmetry; apply Z.ltb_lt; lia).
      destruct (0 <? timeIndicator vars); reflexivity.
    + now rewrite Z.add_0_r.
Qed.

Lemma columnsLoop_isNullable settings table :
  isNullable (columnsLoop settings (Columns table)) = anyNullable table.
Proof. unfold columnsLoop. now rewrite loop_isNullable. Qed.

Lemma columnsLoop_timeIndicator settings table :
  (0 <? timeIndicator (columnsLoop settings (Columns table)))
  = anyTemporal table.
Proof. unfold columnsLoop. now rewrite loop_timeIndicator. Qed.

(** The buffer is the package clause, the import block and the struct. *)
Lemma generatedSource_import_block settings table :
  exists structDecl : string,
    generatedSource settings table
    = "package " +:+ PackageName settings +:+ NL +:+ NL
      +:+ tableImportBlock settings table +:+ structDecl.
Proof. eexists. unfold generatedSource, tableImportBlock. reflexivity. Qed.

(** ** The import block *)

(** The round trip of section 8: three fields in column order, both a
    nullable and a temporal column, hence the two imports of that case. *)
Example users_source :
  generatedSource NewSettings usersTable
  = "package dto" +:+ NL +:+ NL
    +:+ "import (" +:+ NL
    +:+ TAB +:+ DQ +:+ "database/sql" +:+ DQ +:+ NL
    +:+ TAB +:+ NL +:+ DQ +:+ "github.com/lib/pq" +:+ DQ +:+ NL
    +:+ ")" +:+ NL +:+ NL
    +:+ "type Users struct {" +:+ NL
    +:+ TAB +:+ "Id int " +:+ BQ +:+ "db:" +:+ DQ +:+ "id" +:+ DQ +:+ BQ +:+ NL
    +:+ TAB +:+ "Email sql.NullString " +:+ BQ
        +:+ "db:" +:+ DQ +:+ "email" +:+ DQ +:+ BQ +:+ NL
    +:+ TAB +:+ "CreatedAt time.Time " +:+ BQ
        +:+ "db:" +:+ DQ +:+ "created_at" +:+ DQ +:+ BQ +:+ NL
    +:+ "}".
Proof. reflexivity. Qed.

(** The guard of line 295 in terms of the table: the block is written when a
    column is nullable, a column is temporal, or annotations are enabled. *)
Lemma hasImportBlock_guard settings table :
  hasImportBlock settings table
  = anyNullable table || anyTemporal table || annotationsEnabled settings.
Proof.
  unfold hasImportBlock, tableImportBlock, importBlock, annotationsEnabled.
  rewrite columnsLoop_isNullable, columnsLoop_timeIndicator.
  destruct (anyNullable table), (anyTemporal table),
    (IsMastermindStructable settings), (IsMastermindStructableOnly settings);
    reflexivity.
Qed.

(** Whenever an import is needed the block is there. *)
Lemma import_block_when_needed settings table :
  anyNullable table || anyTemporal table || recorderActive settings = true ->
  hasImportBlock settings table = true.
Proof.
  rewrite hasImportBlock_guard. unfold recorderActive, annotationsEnabled.
  destruct (anyNullable table), (anyTemporal table),
    (IsMastermindStructableRecorder settings),
    (IsMastermindStructable settings), (IsMastermindStructableOnly settings);
    cbn; congruence.
Qed.

(** With no nullable column, no temporal column and annotations disabled the
    file has no import block. *)
Lemma no_import_block_plain settings table :
  anyNullable table = false ->
  anyTemporal table = false ->
  annotationsEnabled settings = false ->
  tableImportBlock settings table = EmptyString.
Proof.
  intros Hn Ht Ha.
  pose proof (hasImportBlock_guard settings table) as H.
  rewrite Hn, Ht, Ha in H. unfold hasImportBlock in H.
  apply negb_false_iff, String.eqb_eq in H. exact H.
Qed.

(** C2, at annotations enabled without the recorder: the table has no
    nullable and no temporal column and the recorder is off, and the file
    still carries an import block, one that imports nothing. *)
Theorem import_block_without_imports :
  let settings := settingsWith "pg" "c" true false false in
  anyNullable tagsTable = false
  /\ anyTemporal tagsTable = false
  /\ recorderActive settings = false
  /\ hasImportBlock settings tagsTable = true
  /\ tableImportBlock settings tagsTable = "import (" +:+ NL +:+ ")" +:+ NL +:+ NL
  /\ strings.Contains (generatedSource settings tagsTable)
       ("import (" +:+ NL +:+ ")") = true.
Proof. vm_compute. repeat split; reflexivity. Qed.

(** C7: when the table has a temporal column, the import block holds the
    null-safe temporal import and not the plain one if some column is
    nullable, and the plain temporal import and not the null-safe one if no
    column is nullable. *)
Theorem temporal_import_selection :
  forall (settings : Settings) (table : Table),
    anyTemporal table = true ->
    let block := tableImportBlock settings table in
    (anyNullable table = true ->
     strings.Contains block (importOf "github.com/lib/pq") = true
     /\ strings.Contains block (importOf "time") = false)
    /\ (anyNullable table = false ->
        strings.Contains block (importOf "time") = true
        /\ strings.Contains block (importOf "github.com/lib/pq") = false).
Proof.
  intros settings table Ht block. subst block.
  unfold tableImportBlock, importBlock, recorderActive.
  rewrite columnsLoop_isNullable, columnsLoop_timeIndicator, Ht.
  split; intros Hn; rewrite Hn;
    destruct (IsMastermindStructable settings),
      (IsMastermindStructableOnly settings),
      (IsMastermindStructableRecorder settings);
    vm_compute; split; reflexivity.
Qed.

Lemma temporal_import_selection_witness :
  (anyTemporal usersTable = true
   /\ anyNullable usersTable = true
   /\ strings.Contains (tableImportBlock NewSettings usersTable)
        (importOf "github.com/lib/pq") = true
   /\ strings.Contains (tableImportBlock NewSettings usersTable)
        (importOf "time") = false)
  /\ (anyTemporal eventsTable = true
      /\ anyNullable eventsTable = false
      /\ strings.Contains (tableImportBlock NewSettings eventsTable)
           (importOf "time") = true
      /\ strings.Contains (tableImportBlock NewSettings eventsTable)
           (importOf "github.com/lib/pq") = false).
Proof.
  assert (Hut : anyTemporal usersTable = true) by reflexivity.
  assert (Hun : anyNullable usersTable = true) by reflexivity.
  assert (Het : anyTemporal eventsTable = true) by reflexivity.
  assert (Hen : anyNullable eventsTable = false) by reflexivity.
  destruct (temporal_import_selection NewSettings usersTable Hut) as [Hboth _].
  destruct (temporal_import_selection NewSettings eventsTable Het) as [_ Hplain].
  destruct (Hboth Hun) as [Hpq Htime].
  destruct (Hplain Hen) as [Htime' Hpq'].
  repeat split; assumption.
Defined.

(** ** Annotations *)

Lemma append_nil (b : string) : EmptyString +:+ b = b.
Proof. reflexivity. Qed.

Lemma append_cons (x : ascii) (a b : string) :
  String x a +:+ b = String x (a +:+ b).
Proof. reflexivity. Qed.

Lemma append_nil_r (a : string) : a +:+ EmptyString = a.
Proof.
  induction a as [|x a IH]; [reflexivity|].
  rewrite append_cons. f_equal. exact IH.
Qed.

Lemma append_assoc (a b c : string) : (a +:+ b) +:+ c = a +:+ (b +:+ c).
Proof.
  induction a as [|x a IH]; [reflexivity|].
  rewrite !append_cons. f_equal. exact IH.
Qed.

Example users_id_annotation :
  mastermindStructableAnnotation
    (columnsLoop (settingsWith "pg" "c" true false false)
       (firstn 1 (Columns usersTable)))
  = " stbl:" +:+ DQ +:+ "id,PRIMARY_KEY,SERIAL,AUTO_INCREMENT" +:+ DQ.
Proof. reflexivity. Qed.

(** C6, as the code has it: with annotations enabled, a column whose default
    expression contains "nextval", or whose key role contains "PRI" and whose
    extra attribute contains "auto_increment", gets the role markers after its
    name inside the stbl annotation of its field, whichever dialect is
    configured; a column that meets neither test gets the annotation with
    its name alone. *)
Theorem stbl_annotation_role_markers :
  forall (settings : Settings) (vars : ColumnsInfo) (column : Column),
    annotationsEnabled settings = true ->
    let detected :=
      strings.Contains (sql.String (ColumnDefault column)) "nextval"
      || (strings.Contains (ColumnKey column) "PRI"
          && strings.Contains (Extra column) "auto_increment") in
    let annotation :=
      " stbl:" +:+ DQ +:+ ColumnName column
      +:+ (if detected then roleMarkers else EmptyString) +:+ DQ in
    mastermindStructableAnnotation (columnStep settings vars column)
    = annotation
    /\ exists field : string,
        colBuffer (columnStep settings vars column)
        = colBuffer vars +:+ field +:+ annotation +:+ BQ +:+ NL.
Proof.
  intros settings vars column Hon detected annotation.
  unfold annotationsEnabled in Hon.
  unfold columnStep. rewrite Hon.
  destruct (mapDbColumnTypeToGoType _ _) as [colType isTime].
  cbn [mastermindStructableAnnotation colBuffer].
  split; [reflexivity|].
  fold detected. change (stblAnnotation column) with annotation.
  set (colName := if String.eqb (OutputFormat settings) "c" then _ else _).
  destruct (IsMastermindStructableOnly settings).
  - exists (TAB +:+ colName +:+ " " +:+ colType +:+ " " +:+ BQ).
    now rewrite !append_assoc.
  - exists (TAB +:+ colName +:+ " " +:+ colType +:+ " " +:+ BQ
              +:+ "db:" +:+ DQ +:+ ColumnName column +:+ DQ).
    now rewrite !append_assoc.
Qed.

Lemma stbl_annotation_role_markers_witness :
  annotationsEnabled (settingsWith "mysql" "c" true false false) = true
  /\ mastermindStructableAnnotation
       (columnStep (settingsWith "mysql" "c" true false false)
          initialColumnsInfo ticketColumn)
     = " stbl:" +:+ DQ +:+ "ticket" +:+ roleMarkers +:+ DQ.
Proof.
  assert (Hon : annotationsEnabled (settingsWith "mysql" "c" true false false)
                = true) by reflexivity.
  split; [exact Hon|].
  exact (proj1 (stbl_annotation_role_markers _ initialColumnsInfo ticketColumn
                  Hon)).
Defined.

(** C6 as the claim words it fails: on MySQL, a column whose default
    expression contains "nextval" and whose key role is empty is not detected
    by the MySQL test, and it gets the role markers. *)
Lemma role_markers_by_dialect_counterexample :
  let settings := settingsWith "mysql" "c" true false false in
  let annotation :=
    mastermindStructableAnnotation
      (columnStep settings initialColumnsInfo ticketColumn) in
  annotationsEnabled settings = true
  /\ specDetectsAutoPrimaryKey (DbType settings) ticketColumn = false
  /\ annotation = " stbl:" +:+ DQ +:+ "ticket" +:+ roleMarkers +:+ DQ
  /\ annotation <> " stbl:" +:+ DQ +:+ "ticket" +:+ DQ.
Proof. vm_compute. repeat split; try reflexivity. discriminate. Qed.

(** Without annotations no field carries an stbl annotation. *)
Lemma no_annotation_when_disabled settings columns : forall vars,
  annotationsEnabled settings = false ->
  mastermindStructableAnnotation (fold_left (columnStep settings) columns vars)
  = mastermindStructableAnnotation vars.
Proof.
  induction columns as [|column columns IH]; intros vars Hoff;
    cbn [fold_left]; [reflexivity|].
  rewrite IH by exact Hoff.
  unfold annotationsEnabled in Hoff. unfold columnStep. rewrite Hoff.
  destruct (mapDbColumnTypeToGoType _ _). reflexivity.
Qed.

(** ** Writing the file *)

Lemma Create_success w name w' file :
  os.Create w name = (w', file, None) ->
  file = filepath.Abs (os.wd w) name
  /\ w' = {| os.wd := os.wd w;
             os.nodes := <[file := os.Regular EmptyString]> (os.nodes w) |}.
Proof.
  unfold os.Create. intros H.
  repeat case_match; simplify_eq; auto.
Qed.

Lemma Write_created w file b :
  os.Write
    {| os.wd := os.wd w;
       os.nodes := <[file := os.Regular EmptyString]> (os.nodes w) |} file b
  = {| os.wd := os.wd w;
       os.nodes := <[file := os.Regular b]> (os.nodes w) |}.
Proof.
  unfold os.Write. cbn [os.nodes os.wd].
  rewrite lookup_insert_eq, insert_insert_eq. reflexivity.
Qed.

(** What a successful [createStructOfTable] leaves: the file it created
    holds what the formatter returned. *)
Lemma createStructOfTable_success gofmt st table w' file :
  os.Create (world st) (outputFileName (settings st) table) = (w', file, None) ->
  createStructOfTable gofmt st table
  = ({| settings := settings st;
        world :=
          {| os.wd := os.wd (world st);
             os.nodes :=
               <[file := os.Regular
                           (fst (format_Source gofmt
                                   (generatedSource (settings st) table)))]>
                 (os.nodes (world st)) |} |}, None).
Proof.
  intros Hc. unfold createStructOfTable. rewrite Hc.
  destruct (Create_success _ _ _ _ Hc) as [_ ->].
  destruct (format_Source gofmt _) as [formatedFile e]. cbn [fst].
  now rewrite Write_created.
Qed.

(** When the formatter accepts the text, the file holds the formatted text. *)
Lemma createStructOfTable_formatted gofmt st table w' file formatted :
  gofmt (generatedSource (settings st) table) = Some formatted ->
  os.Create (world st) (outputFileName (settings st) table) = (w', file, None) ->
  os.nodes (world (fst (createStructOfTable gofmt st table))) !! file
  = Some (os.Regular formatted).
Proof.
  intros Hf Hc. rewrite (createStructOfTable_success _ _ _ _ _ Hc).
  unfold format_Source. rewrite Hf. cbn. apply lookup_insert_eq.
Qed.

(** C4, as the code has it: when the formatter fails on the generated text
    and the file could be created, the emitter returns no error and writes the
    bytes the formatter returned, which are none: the file is left created
    and empty. *)
Theorem formatter_failure_leaves_empty_file :
  forall (gofmt : string -> option string) (st : State) (table : Table)
         (w' : os.World) (file : string),
    gofmt (generatedSource (settings st) table) = None ->
    os.Create (world st) (outputFileName (settings st) table) = (w', file, None) ->
    createStructOfTable gofmt st table
    = ({| settings := settings st; world := w' |}, None)
    /\ os.nodes w' !! file = Some (os.Regular EmptyString).
Proof.
  intros gofmt st table w' file Hf Hc.
  rewrite (createStructOfTable_success _ _ _ _ _ Hc).
  unfold format_Source. rewrite Hf. cbn [fst].
  destruct (Create_success _ _ _ _ Hc) as [_ ->]. cbn [os.nodes].
  split; [reflexivity | apply lookup_insert_eq].
Qed.

(** C4 as the claim words it fails: the formatter rejects the text generated
    for the table [order-items] (its struct name is no identifier), the file
    is created, and its content is empty, not the generated text. *)
Lemma formatter_failure_raw_text_counterexample :
  let settings :=
    setOutputFilePath "/home/user/output"
      (settingsWith "pg" "o" false false false) in
  let st := {| settings := settings; world := homeWorld |} in
  let result := createStructOfTable rejectingFormatter st orderItemsTable in
  let file := "/home/user/outputOrder-Items.go" in
  rejectingFormatter (generatedSource settings orderItemsTable) = None
  /\ snd result = None
  /\ os.nodes (world (fst result)) !! file = Some (os.Regular EmptyString)
  /\ os.nodes (world (fst result)) !! file
     <> Some (os.Regular (generatedSource settings orderItemsTable)).
Proof. vm_compute. repeat split; try reflexivity. discriminate. Qed.

Lemma formatter_failure_leaves_empty_file_witness :
  let st :=
    {| settings :=
         setOutputFilePath "/home/user/output"
           (settingsWith "pg" "o" false false false);
       world := homeWorld |} in
  exists w' : os.World,
    createStructOfTable rejectingFormatter st orderItemsTable
    = ({| settings := settings st; world := w' |}, None)
    /\ os.nodes w' !! "/home/user/outputOrder-Items.go"
       = Some (os.Regular EmptyString).
Proof.
  intros st.
  destruct (os.Create (world st) (outputFileName (settings st) orderItemsTable))
    as [[w' file] err] eqn:Hc.
  assert (Hfile : file = "/home/user/outputOrder-Items.go")
    by (vm_compute in Hc; congruence).
  assert (Herr : err = None) by (vm_compute in Hc; congruence).
  subst file err. exists w'.
  exact (formatter_failure_leaves_empty_file rejectingFormatter st
           orderItemsTable w' _ eq_refl Hc).
Defined.

(** ** The settings during a run *)

Lemma createStructOfTable_settings gofmt st table :
  settings (fst (createStructOfTable gofmt st table)) = settings st.
Proof.
  unfold createStructOfTable.
  destruct (os.Create _ _) as [[w outFile] [err|]]; [reflexivity|].
  destruct (format_Source gofmt _). reflexivity.
Qed.

Lemma runTables_settings gofmt db tables : forall st,
  settings (fst (runTables gofmt db st tables)) = settings st.
Proof.
  induction tables as [|table tables IH]; intros st; cbn [runTables];
    [reflexivity|].
  destruct (GetColumnsOfTable table) as [table' [err|]]; [reflexivity|].
  pose proof (createStructOfTable_settings gofmt st table') as Hs.
  destruct (createStructOfTable gofmt st table') as [st' [err|]];
    cbn [fst] in *; [exact Hs|].
  now rewrite IH.
Qed.

Lemma run_settings gofmt db st :
  settings (fst (run gofmt db st)) = settings st.
Proof.
  unfold run. destruct GetTables as [tables [err|]]; [reflexivity|].
  destruct PrepareGetColumnsOfTableStmt; [reflexivity|].
  apply runTables_settings.
Qed.

Lemma sameOtherFields_refl s : sameOtherFields s s.
Proof. unfold sameOtherFields. repeat split. Qed.

Lemma IsStringInSlice_In needle haystack :
  IsStringInSlice needle haystack = true <-> In needle haystack.
Proof. apply case_In. Qed.

(** What [VerifySettings] does to the settings it is given. *)
Lemma VerifySettings_frame w s :
  let s' := fst (VerifySettings w s) in
  sameOtherFields s' s
  /\ (Port s' = Port s
      \/ (Port s = EmptyString
          /\ Port s' = mapIndex DbDefaultPorts (DbType s)
          /\ In (Port s') ["5432"; "3306"]))
  /\ (OutputFilePath s' = OutputFilePath s
      \/ OutputFilePath s'
         = filepath.Abs (os.wd w) (OutputFilePath s +:+ "/")).
Proof.
  unfold VerifySettings.
  destruct (IsStringInSlice (DbType s) SupportedDbTypes) eqn:Hdb; cbn [negb];
    [|cbn; auto using sameOtherFields_refl].
  destruct (IsStringInSlice (OutputFormat s) SupportedOutputFormats);
    cbn [negb]; [|cbn; auto using sameOtherFields_refl].
  destruct (verifyOutputPath w (OutputFilePath s));
    [cbn; auto using sameOtherFields_refl|].
  unfold prepareOutputPath.
  cbn [Port PackageName DbType setOutputFilePath].
  assert (Hports : In (mapIndex DbDefaultPorts (DbType s)) ["5432"; "3306"]).
  { apply IsStringInSlice_In in Hdb. cbn in Hdb.
    destruct Hdb as [<-|[<-|[]]]; vm_compute; auto. }
  destruct (String.eqb (Port s) EmptyString) eqn:Hport;
    cbn [PackageName setPort setOutputFilePath];
    destruct (String.eqb (PackageName s) EmptyString);
    cbn; (split; [repeat split|]); split; auto.
  all: right; split; [now apply String.eqb_eq|]; split; [reflexivity|exact Hports].
Qed.

(** C8, as the code has it: after a run, whatever its outcome, every
    configuration field other than the port and the output path holds its
    original value; the port is its original value, or was empty and is the
    default port of the dialect; the output path is its original value, or
    the absolute form of it that [prepareOutputPath] computes. *)
Theorem Run_settings_frame :
  forall (gofmt : string -> option string) (connect : Settings -> error)
         (MySQLDatabase PostgreDatabase : Settings -> Database)
         (w : os.World) (s : Settings),
    let s' :=
      settings (fst (Run gofmt connect MySQLDatabase PostgreDatabase w s)) in
    sameOtherFields s' s
    /\ (Port s' = Port s
        \/ (Port s = EmptyString
            /\ Port s' = mapIndex DbDefaultPorts (DbType s)
            /\ In (Port s') ["5432"; "3306"]))
    /\ (OutputFilePath s' = OutputFilePath s
        \/ OutputFilePath s'
           = filepath.Abs (os.wd w) (OutputFilePath s +:+ "/")).
Proof.
  intros gofmt connect MySQLDatabase PostgreDatabase w s.
  pose proof (VerifySettings_frame w s) as Hv. cbn zeta in Hv.
  unfold Run. destruct (VerifySettings w s) as [s1 [err|]]; cbn [fst] in Hv;
    [exact Hv|].
  destruct (connect s1); [exact Hv|].
  cbn zeta. rewrite run_settings. exact Hv.
Qed.

(** C8 as the claim words it fails: the default settings pass verification,
    the run succeeds, and the output path is no longer the one configured. *)
Lemma settings_output_path_counterexample :
  let result :=
    Run acceptingFormatter connected (fun _ => usersCatalog)
      (fun _ => usersCatalog) homeWorld NewSettings in
  snd result = None
  /\ OutputFilePath NewSettings = "./output"
  /\ OutputFilePath (settings (fst result)) = "/home/user/output"
  /\ OutputFilePath (settings (fst result)) <> OutputFilePath NewSettings.
Proof. vm_compute. repeat split; try reflexivity. discriminate. Qed.

(** ** The path of the emitted file *)

(** The file is created at the output path with the file name appended to it
    directly. *)
Lemma createStructOfTable_path gofmt st table w' file :
  os.Create (world st) (outputFileName (settings st) table) = (w', file, None) ->
  file
  = filepath.Abs (os.wd (world st))
      (OutputFilePath (settings st) +:+ structName (settings st) table +:+ ".go")
  /\ snd (createStructOfTable gofmt st table) = None
  /\ exists content : string,
      os.nodes (world (fst (createStructOfTable gofmt st table))) !! file
      = Some (os.Regular content).
Proof.
  intros Hc. rewrite (createStructOfTable_success _ _ _ _ _ Hc). cbn.
  destruct (Create_success _ _ _ _ Hc) as [-> _].
  split; [reflexivity|]. split; [reflexivity|].
  eexists. apply lookup_insert_eq.
Qed.

(** C1, at the default settings: the run verifies the settings, which makes
    the output directory [/home/user/output], and emits the struct of the
    table [users]; the file is written at [/home/user/outputUsers.go], beside
    the output directory, and nothing is written at
    [/home/user/output/Users.go]. *)
Theorem default_run_output_path :
  let result :=
    Run acceptingFormatter connected (fun _ => usersCatalog)
      (fun _ => usersCatalog) homeWorld NewSettings in
  let final := settings (fst result) in
  let files := os.nodes (world (fst result)) in
  snd result = None
  /\ OutputFilePath final = "/home/user/output"
  /\ structName final usersTable = "Users"
  /\ specOutputPath (OutputFilePath final) final usersTable
     = "/home/user/output/Users.go"
  /\ files !! "/home/user/output/Users.go" = None
  /\ files !! "/home/user/outputUsers.go"
     = Some (os.Regular (generatedSource final usersTable)).
Proof. vm_compute. repeat split; reflexivity. Qed.

(** ** The naming normalizer *)

Example Title_column : strings.Title "created_at" = "Created_at".
Proof. reflexivity. Qed.

Example Title_words : strings.Title "order items" = "Order Items".
Proof. reflexivity. Qed.

Example CamelCaseString_column : CamelCaseString "Created_at" = "CreatedAt".
Proof. reflexivity. Qed.

Example CamelCaseString_separators : CamelCaseString "_a__b-c" = "ABC".
Proof. reflexivity. Qed.

Ltac each_ascii c := destruct c as [[] [] [] [] [] [] [] []].

Lemma ToTitle_idempotent c :
  strings.ToTitle (strings.ToTitle c) = strings.ToTitle c.
Proof. each_ascii c; reflexivity. Qed.

Lemma isSeparator_ToTitle c :
  strings.isSeparator (strings.ToTitle c) = strings.isSeparator c.
Proof. each_ascii c; reflexivity. Qed.

Lemma isAlphanumeric_ToTitle c :
  isAlphanumeric (strings.ToTitle c) = isAlphanumeric c.
Proof. each_ascii c; reflexivity. Qed.

(** A second pass of the closure of [Title] changes nothing, whatever rune
    it starts from, as long as that rune separates as the first one did. *)
Lemma titleFrom_idempotent s : forall prev prev',
  strings.isSeparator prev' = strings.isSeparator prev ->
  strings.titleFrom prev' (strings.titleFrom prev s) = strings.titleFrom prev s.
Proof.
  induction s as [|r s IH]; intros prev prev' Hsep; cbn [strings.titleFrom];
    [reflexivity|].
  rewrite Hsep. f_equal.
  - destruct (strings.isSeparator prev);
      [apply ToTitle_idempotent | reflexivity].
  - apply IH. destruct (strings.isSeparator prev);
      [apply isSeparator_ToTitle | reflexivity].
Qed.

Lemma segments_not_nil s : segments s <> [].
Proof.
  destruct s as [|c s]; cbn; [discriminate|].
  destruct (isAlphanumeric c); [|discriminate].
  destruct (segments s); discriminate.
Qed.

Lemma segments_alphanumeric s :
  Forall (fun segment => allAlphanumeric segment = true) (segments s).
Proof.
  induction s as [|c s IH]; cbn [segments].
  - constructor; [reflexivity | constructor].
  - destruct (isAlphanumeric c) eqn:Hc.
    + destruct (segments s) as [|segment rest].
      * constructor; [cbn; now rewrite Hc | constructor].
      * inversion IH as [|? ? Hseg Hrest]; subst.
        constructor; [cbn; now rewrite Hc, Hseg | exact Hrest].
    + constructor; [reflexivity | exact IH].
Qed.

Lemma capitalize_alphanumeric segment :
  allAlphanumeric (capitalize segment) = allAlphanumeric segment.
Proof.
  destruct segment as [|c rest]; cbn; [reflexivity|].
  now rewrite isAlphanumeric_ToTitle.
Qed.

Lemma allAlphanumeric_append a b :
  allAlphanumeric (a +:+ b) = allAlphanumeric a && allAlphanumeric b.
Proof.
  induction a as [|c a IH]; [reflexivity|].
  rewrite append_cons. cbn [allAlphanumeric]. rewrite IH.
  now rewrite andb_assoc.
Qed.

(** The result of [CamelCaseString] holds alphanumeric characters only. *)
Lemma CamelCaseString_alphanumeric s :
  allAlphanumeric (CamelCaseString s) = true.
Proof.
  unfold CamelCaseString.
  induction (segments_alphanumeric s) as [|segment rest Hseg _ IH];
    cbn [map fold_right]; [reflexivity|].
  now rewrite allAlphanumeric_append, capitalize_alphanumeric, Hseg, IH.
Qed.

(** An alphanumeric string is its one segment. *)
Lemma segments_of_alphanumeric s :
  allAlphanumeric s = true -> segments s = [s].
Proof.
  induction s as [|c s IH]; cbn [allAlphanumeric segments]; [reflexivity|].
  intros H. apply andb_true_iff in H as [Hc Hs].
  now rewrite Hc, (IH Hs).
Qed.

(** The concatenation of capitalized segments begins capitalized. *)
Lemma capitalize_joined segs :
  capitalize (fold_right String.append EmptyString (map capitalize segs))
  = fold_right String.append EmptyString (map capitalize segs).
Proof.
  induction segs as [|segment rest IH]; cbn [map fold_right]; [reflexivity|].
  destruct segment as [|c segment]; cbn [capitalize].
  - rewrite append_nil. exact IH.
  - rewrite append_cons. cbn [capitalize]. now rewrite ToTitle_idempotent.
Qed.

(** *** [strings.Title] over every byte string *)

(** *** Exhaustive checks *)

Lemma allFrom_spec k : forall lo p,
  allFrom k lo p = true ->
  forall r : N, (lo <= r < lo + 2 ^ N.of_nat k)%N -> p r = true.
Proof.
  induction k as [|k IH]; intros lo p H r Hr.
  - change (2 ^ N.of_nat 0)%N with 1%N in Hr.
    replace r with lo by lia. exact H.
  - cbn [allFrom] in H. apply andb_true_iff in H as [Hlow Hhigh].
    rewrite Nat2N.inj_succ, N.pow_succ_r' in Hr.
    destruct (N.lt_ge_cases r (lo + 2 ^ N.of_nat k)) as [Hlt|Hge].
    + apply (IH lo p Hlow). lia.
    + apply (IH _ p Hhigh). lia.
Qed.

Lemma allBytes_spec p : allBytes p = true -> forall b : ascii, p b = true.
Proof.
  intros H b.
  pose proof (allFrom_spec 8 0 (fun n => p (ascii_of_N n)) H (N_of_ascii b))
    as Hb.
  cbn beta in Hb. rewrite ascii_N_embedding in Hb. apply Hb.
  change (2 ^ N.of_nat 8)%N with 256%N.
  pose proof (N_ascii_bounded b). lia.
Qed.

Lemma allContinuation_spec p :
  allContinuation p = true ->
  forall b : ascii, utf8.continuation b = true -> p b = true.
Proof.
  intros H b Hb.
  pose proof (allFrom_spec 6 128 (fun n => p (ascii_of_N n)) H (N_of_ascii b))
    as Hp.
  cbn beta in Hp. rewrite ascii_N_embedding in Hp. apply Hp.
  change (2 ^ N.of_nat 6)%N with 64%N.
  unfold utf8.continuation in Hb.
  apply andb_true_iff in Hb as [Hlo Hhi].
  apply N.leb_le in Hlo, Hhi. lia.
Qed.

(** Checked on every rune below [2^16], the runes of one, two and three
    bytes. *)
Lemma encodingDecodes_all : allFrom 16 0 encodingDecodes = true.
Proof. vm_compute. reflexivity. Qed.

(** Checked on every sequence of up to three bytes the decoder accepts. *)
Lemma decodesValid_all : allBytes decodesValid = true.
Proof. vm_compute. reflexivity. Qed.

(** *** Sequences of four bytes, by arithmetic *)

Ltac divmod := zify; Z.to_euclidean_division_equations; lia.

(** Two bit fields that do not overlap add up. *)
Lemma lor_shiftl_add a n b :
  (b < 2 ^ n)%N -> N.lor (N.shiftl a n) b = (a * 2 ^ n + b)%N.
Proof.
  intros Hb.
  assert (Hdisjoint : N.land (N.shiftl a n) b = 0%N).
  { apply N.bits_inj. intros m. rewrite N.land_spec, N.bits_0.
    destruct (N.lt_ge_cases m n) as [Hm|Hm].
    - now rewrite N.shiftl_spec_low.
    - rewrite <- (N.mod_small b (2 ^ n)) by exact Hb.
      rewrite N.mod_pow2_bits_high by exact Hm. apply andb_false_r. }
  rewrite <- N.lxor_lor, <- N.add_nocarry_lxor by exact Hdisjoint.
  now rewrite N.shiftl_mul_pow2.
Qed.

Lemma lor_continuation x : (x < 64)%N -> N.lor 128 x = (128 + x)%N.
Proof. intros Hx. exact (lor_shiftl_add 2 6 x Hx). Qed.

Lemma lor_lead4 x : (x < 8)%N -> N.lor 240 x = (240 + x)%N.
Proof. intros Hx. exact (lor_shiftl_add 30 3 x Hx). Qed.

Lemma land_63 x : N.land x 63 = (x mod 64)%N.
Proof. exact (N.land_ones x 6). Qed.

Lemma land_7 x : N.land x 7 = (x mod 8)%N.
Proof. exact (N.land_ones x 3). Qed.

Lemma rune4_arith s0 s1 s2 s3 :
  utf8.rune4 s0 s1 s2 s3
  = ((N_of_ascii s0 mod 8) * 262144 + (N_of_ascii s1 mod 64) * 4096
     + (N_of_ascii s2 mod 64) * 64 + N_of_ascii s3 mod 64)%N.
Proof.
  unfold utf8.rune4. rewrite land_7, !land_63.
  pose proof (N.mod_lt (N_of_ascii s1) 64 ltac:(lia)).
  pose proof (N.mod_lt (N_of_ascii s2) 64 ltac:(lia)).
  pose proof (N.mod_lt (N_of_ascii s3) 64 ltac:(lia)).
  rewrite (lor_shiftl_add _ 6) by (change (2 ^ 6)%N with 64%N; lia).
  rewrite (lor_shiftl_add _ 12)
    by (change (2 ^ 6)%N with 64%N; change (2 ^ 12)%N with 4096%N; lia).
  rewrite (lor_shiftl_add _ 18)
    by (change (2 ^ 6)%N with 64%N; change (2 ^ 12)%N with 4096%N;
        change (2 ^ 18)%N with 262144%N; lia).
  change (2 ^ 6)%N with 64%N; change (2 ^ 12)%N with 4096%N;
    change (2 ^ 18)%N with 262144%N.
  lia.
Qed.

(** Every sequence of four bytes the decoder accepts is the sequence of a
    valid rune, U+10000 to U+10FFFF. *)
Lemma rune4_valid s0 s1 s2 s3 :
  utf8.leadSize s0 = 4%nat ->
  utf8.acceptsSecond s0 s1 = true ->
  utf8.continuation s2 = true ->
  utf8.continuation s3 = true ->
  utf8.ValidRune (utf8.rune4 s0 s1 s2 s3) = true.
Proof.
  intros H0 H1 H2 H3. rewrite rune4_arith.
  unfold utf8.leadSize, utf8.acceptsSecond, utf8.continuation in *.
  cbv zeta in *.
  set (n0 := N_of_ascii s0) in *. set (n1 := N_of_ascii s1) in *.
  set (n2 := N_of_ascii s2) in *. set (n3 := N_of_ascii s3) in *.
  apply andb_true_iff in H2 as [H2 H2'], H3 as [H3 H3'], H1 as [H1 H1'].
  apply N.leb_le in H2, H2', H3, H3', H1, H1'.
  assert (Hn0 : (240 <= n0 <= 244)%N).
  { destruct (N.leb_spec n0 127); [discriminate|].
    destruct (N.leb_spec 194 n0), (N.leb_spec n0 223); try discriminate;
    destruct (N.leb_spec 224 n0), (N.leb_spec n0 239); try discriminate;
    destruct (N.leb_spec 240 n0), (N.leb_spec n0 244); try discriminate;
    lia. }
  unfold utf8.ValidRune, utf8.MaxRune.
  apply orb_true_iff. right. apply andb_true_iff.
  rewrite N.ltb_lt, N.leb_le.
  destruct (N.eqb_spec n0 224); [lia|].
  destruct (N.eqb_spec n0 237); [lia|].
  destruct (N.eqb_spec n0 240), (N.eqb_spec n0 244); divmod.
Qed.

(** Decoding undoes encoding for the runes of four bytes. *)
Lemma encodingDecodes_four r :
  (65535 < r)%N -> utf8.ValidRune r = true -> encodingDecodes r = true.
Proof.
  intros Hr Hv.
  assert (Hmax : (r <= 1114111)%N).
  { unfold utf8.ValidRune, utf8.MaxRune in Hv.
    apply orb_true_iff in Hv as [H|H].
    - apply N.ltb_lt in H. lia.
    - apply andb_true_iff in H as [_ H]. now apply N.leb_le in H. }
  unfold encodingDecodes, utf8.EncodeRune. rewrite Hv.
  destruct (N.leb_spec r 127); [lia|].
  destruct (N.leb_spec r 2047); [lia|].
  destruct (N.leb_spec r 65535); [lia|].
  rewrite !land_63, !N.shiftr_div_pow2.
  change (2 ^ 6)%N with 64%N; change (2 ^ 12)%N with 4096%N;
    change (2 ^ 18)%N with 262144%N.
  rewrite lor_lead4 by divmod.
  rewrite !lor_continuation by (apply N.mod_lt; lia).
  rewrite rune4_arith.
  unfold utf8.leadSize, utf8.acceptsSecond, utf8.continuation. cbv zeta.
  rewrite !N_ascii_embedding
    by (try (pose proof (N.mod_lt (r / 4096) 64 ltac:(lia)));
        try (pose proof (N.mod_lt (r / 64) 64 ltac:(lia)));
        try (pose proof (N.mod_lt r 64 ltac:(lia))); divmod).
  set (q := (r / 262144)%N).
  assert (Hq : (q <= 4)%N) by (subst q; divmod).
  destruct (N.leb_spec (240 + q) 127); [lia|].
  destruct (N.leb_spec (240 + q) 223); [lia|]. rewrite andb_false_r.
  destruct (N.leb_spec (240 + q) 239); [lia|]. rewrite andb_false_r.
  destruct (N.leb_spec 240 (240 + q)); [|lia].
  destruct (N.leb_spec (240 + q) 244); [|lia].
  cbn [andb Nat.eqb].
  destruct (N.eqb_spec (240 + q) 224); [lia|].
  destruct (N.eqb_spec (240 + q) 237); [lia|].
  repeat (apply andb_true_iff; split);
    rewrite ?N.leb_le, ?N.eqb_eq;
    try (destruct (N.eqb_spec (240 + q) 240));
    try (destruct (N.eqb_spec (240 + q) 244));
    subst q; divmod.
Qed.

(** *** Decoding and encoding *)

(** Decoding undoes encoding: the bytes of a valid rune are read back as
    that rune. *)
Lemma runes_EncodeRune r rest :
  utf8.ValidRune r = true ->
  utf8.runes (utf8.EncodeRune r +:+ rest) = r :: utf8.runes rest.
Proof.
  intros Hv.
  assert (Hc : encodingDecodes r = true).
  { destruct (N.le_gt_cases r 65535) as [Hle|Hgt].
    - apply (allFrom_spec 16 0 _ encodingDecodes_all).
      change (2 ^ N.of_nat 16)%N with 65536%N. lia.
    - now apply encodingDecodes_four. }
  unfold encodingDecodes in Hc. rewrite Hv in Hc.
  destruct (utf8.EncodeRune r) as [|a [|b [|c [|d [|e more]]]]];
    try discriminate; rewrite ?append_cons, append_nil;
    repeat match type of Hc with
      | (_ && _ = true) =>
          let H := fresh "H" in apply andb_true_iff in Hc as [Hc H]
      end;
    apply Nat.eqb_eq in Hc; cbn [utf8.runes]; rewrite Hc.
  - apply N.eqb_eq in H. now rewrite H.
  - apply N.eqb_eq in H. now rewrite H0, H.
  - apply N.eqb_eq in H. now rewrite H1, H0, H.
  - apply N.eqb_eq in H. now rewrite H2, H1, H0, H.
Qed.

Lemma runes_valid_upto n : forall s,
  (String.length s <= n)%nat ->
  Forall (fun r => utf8.ValidRune r = true) (utf8.runes s).
Proof.
  induction n as [|n IH]; intros s Hlen.
  - destruct s; [constructor | cbn in Hlen; lia].
  - destruct s as [|s0 rest1]; [constructor|].
    cbn [String.length] in Hlen.
    pose proof (allBytes_spec _ decodesValid_all s0) as Hd.
    unfold decodesValid in Hd.
    assert (Hinv : Forall (fun r => utf8.ValidRune r = true)
                     (utf8.RuneError :: utf8.runes rest1)).
    { constructor; [reflexivity | apply IH; lia]. }
    cbn [utf8.runes].
    destruct (utf8.leadSize s0) as [|[|[|[|[|k]]]]] eqn:Hsize;
      try exact Hinv.
    + constructor; [exact Hd | apply IH; lia].
    + destruct rest1 as [|s1 rest2]; [exact Hinv|].
      pose proof (allBytes_spec _ Hd s1) as H1. cbn beta in H1.
      destruct (utf8.acceptsSecond s0 s1); [|exact Hinv].
      constructor; [exact H1 | apply IH; cbn in Hlen; lia].
    + destruct rest1 as [|s1 [|s2 rest3]]; try exact Hinv.
      pose proof (allBytes_spec _ Hd s1) as H1. cbn beta in H1.
      destruct (utf8.acceptsSecond s0 s1); [|exact Hinv].
      destruct (utf8.continuation s2) eqn:H2; [|exact Hinv].
      cbn [andb]. constructor;
        [exact (allContinuation_spec _ H1 s2 H2)
        | apply IH; cbn in Hlen; lia].
    + destruct rest1 as [|s1 [|s2 [|s3 rest4]]]; try exact Hinv.
      destruct (utf8.acceptsSecond s0 s1) eqn:H1; [|exact Hinv].
      destruct (utf8.continuation s2) eqn:H2; [|exact Hinv].
      destruct (utf8.continuation s3) eqn:H3; [|exact Hinv].
      cbn [andb]. constructor;
        [now apply rune4_valid | apply IH; cbn in Hlen; lia].
Qed.

(** Every rune read from a string is valid. *)
Lemma runes_valid s :
  Forall (fun r => utf8.ValidRune r = true) (utf8.runes s).
Proof. apply (runes_valid_upto (String.length s)). lia. Qed.

Lemma runes_encodeRunes rs :
  Forall (fun r => utf8.ValidRune r = true) rs ->
  utf8.runes (utf8.encodeRunes rs) = rs.
Proof.
  induction 1 as [|r rest Hr _ IH]; [reflexivity|].
  cbn [utf8.encodeRunes]. now rewrite runes_EncodeRune, IH.
Qed.

(** *** Title case *)

Section TitleCase.

Variable t : unicode.Tables.
Hypothesis Hstable : titleCaseStable t.

Lemma asciiTitleStable_all : allFrom 7 0 (asciiTitleStable t) = true.
Proof. vm_compute. reflexivity. Qed.

Lemma ToTitle_stable r :
  unicode.ToTitle t (unicode.ToTitle t r) = unicode.ToTitle t r
  /\ stringsUTF8.isSeparator t (unicode.ToTitle t r)
     = stringsUTF8.isSeparator t r
  /\ (utf8.ValidRune r = true -> utf8.ValidRune (unicode.ToTitle t r) = true).
Proof.
  destruct (N.le_gt_cases r 127) as [Hascii|Habove].
  - assert (H : asciiTitleStable t r = true).
    { apply (allFrom_spec 7 0 _ asciiTitleStable_all).
      change (2 ^ N.of_nat 7)%N with 128%N. lia. }
    unfold asciiTitleStable in H.
    apply andb_true_iff in H as [H Hv]. apply andb_true_iff in H as [Hi Hs].
    apply N.eqb_eq in Hi. apply Bool.eqb_prop in Hs. auto.
  - destruct (Hstable r Habove) as (Hv & Hi & Hs).
    assert (Heq : unicode.ToTitle t r = unicode.toTitle t r).
    { unfold unicode.ToTitle.
      replace (r <=? 127)%N with false by (symmetry; now apply N.leb_gt).
      reflexivity. }
    rewrite Heq. auto.
Qed.

Lemma titleRunes_idempotent rs : forall prev prev',
  stringsUTF8.isSeparator t prev' = stringsUTF8.isSeparator t prev ->
  stringsUTF8.titleRunes t prev' (stringsUTF8.titleRunes t prev rs)
  = stringsUTF8.titleRunes t prev rs.
Proof.
  induction rs as [|r rs IH]; intros prev prev' Hsep;
    cbn [stringsUTF8.titleRunes]; [reflexivity|].
  destruct (ToTitle_stable r) as (Hi & Hs & _).
  rewrite Hsep. f_equal.
  - destruct (stringsUTF8.isSeparator t prev); [exact Hi | reflexivity].
  - apply IH. destruct (stringsUTF8.isSeparator t prev);
      [exact Hs | reflexivity].
Qed.

Lemma titleRunes_valid rs : forall prev,
  Forall (fun r => utf8.ValidRune r = true) rs ->
  Forall (fun r => utf8.ValidRune r = true) (stringsUTF8.titleRunes t prev rs).
Proof.
  induction rs as [|r rs IH]; intros prev Hall;
    cbn [stringsUTF8.titleRunes]; [constructor|].
  inversion Hall as [|? ? Hr Hrest]; subst.
  constructor; [|now apply IH].
  destruct (stringsUTF8.isSeparator t prev); [|exact Hr].
  now apply ToTitle_stable.
Qed.

(** [Title] is idempotent on every byte string. *)
Lemma Title_idempotent x :
  stringsUTF8.Title t (stringsUTF8.Title t x) = stringsUTF8.Title t x.
Proof.
  unfold stringsUTF8.Title.
  rewrite runes_encodeRunes by (apply titleRunes_valid, runes_valid).
  now rewrite titleRunes_idempotent.
Qed.

End TitleCase.

(** The Latin-1 tables satisfy the facts. *)
Lemma latin1Stable_all : allFrom 8 0 latin1Stable = true.
Proof. vm_compute. reflexivity. Qed.

Lemma latin1Tables_above r :
  (255 < r)%N -> unicode.toTitle latin1Tables r = r.
Proof.
  intros Hr. cbn [unicode.toTitle latin1Tables].
  replace (r <=? 254)%N with false by (symmetry; apply N.leb_gt; lia).
  replace (r =? 255)%N with false by (symmetry; apply N.eqb_neq; lia).
  replace (r =? 181)%N with false by (symmetry; apply N.eqb_neq; lia).
  now rewrite andb_false_r.
Qed.

Lemma latin1Tables_stable : titleCaseStable latin1Tables.
Proof.
  intros r Habove.
  destruct (N.le_gt_cases r 255) as [Hlatin|Hhigh].
  - assert (H : latin1Stable r = true).
    { apply (allFrom_spec 8 0 _ latin1Stable_all).
      change (2 ^ N.of_nat 8)%N with 256%N. lia. }
    unfold latin1Stable in H.
    replace (r <=? 127)%N with false in H by (symmetry; now apply N.leb_gt).
    apply andb_true_iff in H as [H Hs]. apply andb_true_iff in H as [Hv Hi].
    apply N.eqb_eq in Hi. apply Bool.eqb_prop in Hs.
    repeat split; [|exact Hi|exact Hs].
    intros Hr. now rewrite Hr in Hv.
  - rewrite (latin1Tables_above r Hhigh). repeat split; [auto|].
    unfold unicode.ToTitle.
    replace (r <=? 127)%N with false by (symmetry; now apply N.leb_gt).
    now apply latin1Tables_above.
Qed.

Example Title_latin1 :
  stringsUTF8.Title latin1Tables elan
  = String (ascii_of_nat 195) (String (ascii_of_nat 137) "lan Vital").
Proof. reflexivity. Qed.

Example Title_invalid_byte :
  stringsUTF8.Title latin1Tables brokenName
  = utf8.EncodeRune utf8.RuneError +:+ "a B".
Proof. reflexivity. Qed.

(** *** ASCII text *)

Lemma ascii_leadSize c :
  (N_of_ascii c <=? 127)%N = true -> utf8.leadSize c = 1%nat.
Proof. unfold utf8.leadSize. now intros ->. Qed.

Lemma ascii_isSeparator t c :
  (N_of_ascii c <=? 127)%N = true ->
  stringsUTF8.isSeparator t (N_of_ascii c) = strings.isSeparator c.
Proof.
  intros H. each_ascii c; try (vm_compute in H; discriminate H); reflexivity.
Qed.

Lemma ascii_EncodeRune c :
  (N_of_ascii c <=? 127)%N = true ->
  utf8.EncodeRune (N_of_ascii c) = String c EmptyString.
Proof.
  intros H. each_ascii c; try (vm_compute in H; discriminate H); reflexivity.
Qed.

Lemma ascii_ToTitle t c :
  (N_of_ascii c <=? 127)%N = true ->
  utf8.EncodeRune (unicode.ToTitle t (N_of_ascii c))
  = String (strings.ToTitle c) EmptyString.
Proof.
  intros H. each_ascii c; try (vm_compute in H; discriminate H); reflexivity.
Qed.

Lemma titleRunes_on_ascii t s : forall prev,
  (N_of_ascii prev <=? 127)%N = true ->
  allASCII s = true ->
  utf8.encodeRunes
    (stringsUTF8.titleRunes t (N_of_ascii prev) (utf8.runes s))
  = strings.titleFrom prev s.
Proof.
  induction s as [|c s IH]; intros prev Hprev Hs; [reflexivity|].
  cbn [allASCII] in Hs. apply andb_true_iff in Hs as [Hc Hs].
  cbn [utf8.runes]. rewrite (ascii_leadSize c Hc).
  cbn [stringsUTF8.titleRunes utf8.encodeRunes strings.titleFrom].
  rewrite (IH c Hc Hs), (ascii_isSeparator t prev Hprev).
  destruct (strings.isSeparator prev).
  - now rewrite (ascii_ToTitle t c Hc).
  - now rewrite (ascii_EncodeRune c Hc).
Qed.

(** On ASCII text [strings.Title] over every byte string is the
    [strings.Title] the generator is run with, whatever the tables. *)
Lemma Title_on_ascii t s :
  allASCII s = true -> stringsUTF8.Title t s = strings.Title s.
Proof.
  intros Hs. unfold stringsUTF8.Title, strings.Title.
  now apply (titleRunes_on_ascii t s " ").
Qed.

(** *** Camel case *)

Lemma CamelCaseString_idempotent x :
  CamelCaseString (CamelCaseString x) = CamelCaseString x.
Proof.
  pose proof (CamelCaseString_alphanumeric x) as Halnum.
  unfold CamelCaseString at 1.
  rewrite (segments_of_alphanumeric _ Halnum). cbn [map fold_right].
  unfold CamelCaseString.
  generalize (capitalize_joined (segments x)).
  generalize (fold_right String.append EmptyString
                (map capitalize (segments x))).
  intros joined ->. apply append_nil_r.
Qed.

(** C9: the naming normalizers are idempotent on every string.  Titling a
    titled string changes nothing: [strings.Title] is taken over every byte
    string, UTF-8 or not, with the tables of package [unicode] above U+007F
    as parameters, of which three facts are used (the title case mapping
    keeps runes valid, maps its results to themselves and keeps separators
    apart from the other runes).  Camel-casing a camel-cased string changes
    nothing. *)
Theorem naming_normalizers_idempotent :
  forall t : unicode.Tables,
    titleCaseStable t ->
    forall x : string,
      stringsUTF8.Title t (stringsUTF8.Title t x) = stringsUTF8.Title t x
      /\ CamelCaseString (CamelCaseString x) = CamelCaseString x.
Proof.
  intros t Hstable x. split.
  - now apply Title_idempotent.
  - apply CamelCaseString_idempotent.
Qed.

Lemma naming_normalizers_idempotent_witness :
  titleCaseStable latin1Tables
  /\ stringsUTF8.Title latin1Tables (stringsUTF8.Title latin1Tables elan)
     = stringsUTF8.Title latin1Tables elan
  /\ stringsUTF8.Title latin1Tables
       (stringsUTF8.Title latin1Tables brokenName)
     = stringsUTF8.Title latin1Tables brokenName
  /\ CamelCaseString (CamelCaseString "created_at")
     = CamelCaseString "created_at".
Proof.
  split; [exact latin1Tables_stable|].
  destruct (naming_normalizers_idempotent latin1Tables latin1Tables_stable
              elan) as [Helan _].
  destruct (naming_normalizers_idempotent latin1Tables latin1Tables_stable
              brokenName) as [Hbroken _].
  destruct (naming_normalizers_idempotent latin1Tables latin1Tables_stable
              "created_at") as [_ Hcamel].
  split; [exact Helan|]. split; [exact Hbroken | exact Hcamel].
Defined.

(** ** [filepath.Clean] drops a trailing separator *)

Example Clean_samples :
  map filepath.Clean
    ["./output/"; "/"; "//"; "a/../../b"; "/../a/./b/"; EmptyString; "a/b/.."]
  = ["output"; "/"; "/"; "../b"; "/a/b"; "."; "a"].
Proof. reflexivity. Qed.

Lemma elements_no_separator path :
  Forall (fun e => hasSeparator e = false) (filepath.elements path).
Proof.
  induction path as [|c path IH]; cbn [filepath.elements].
  - constructor; [reflexivity | constructor].
  - destruct (Ascii.eqb c filepath.Separator) eqn:Hc.
    + constructor; [reflexivity | exact IH].
    + destruct (filepath.elements path) as [|e es].
      * constructor; [cbn; now rewrite Hc | constructor].
      * inversion IH as [|? ? He Hes]; subst.
        constructor; [cbn; now rewrite Hc, He | exact Hes].
Qed.

Lemma cleanElements_kept rooted elems : forall out,
  Forall (fun e => hasSeparator e = false) elems ->
  Forall keptElement out ->
  Forall keptElement (filepath.cleanElements rooted out elems).
Proof.
  induction elems as [|e elems IH]; intros out Helems Hout;
    cbn [filepath.cleanElements]; [exact Hout|].
  inversion Helems as [|? ? He Hrest]; subst.
  destruct (String.eqb e EmptyString) eqn:Hempty; [now apply IH|].
  assert (Hkept : keptElement e).
  { split; [now apply String.eqb_neq | exact He]. }
  destruct (String.eqb e "."); [now apply IH|].
  destruct (String.eqb e "..").
  - destruct out as [|top out'].
    + destruct rooted; apply IH; auto.
    + inversion Hout; subst.
      destruct (String.eqb top ".."); apply IH; auto.
  - apply IH; auto.
Qed.

Lemma no_separator_no_trailing e :
  hasSeparator e = false -> endsWithSeparator e = false.
Proof.
  induction e as [|c e IH]; cbn [hasSeparator endsWithSeparator];
    [reflexivity|].
  intros H. apply orb_false_iff in H as [Hc He].
  destruct e; [exact Hc | now apply IH].
Qed.

Lemma endsWithSeparator_append a b :
  b <> EmptyString ->
  endsWithSeparator (a +:+ b) = endsWithSeparator b.
Proof.
  intros Hb. induction a as [|c a IH]; [reflexivity|].
  rewrite append_cons. cbn [endsWithSeparator].
  destruct (a +:+ b) eqn:Hab; [|exact IH].
  destruct a; [rewrite append_nil in Hab; contradiction|].
  rewrite append_cons in Hab. discriminate.
Qed.

Lemma joinElements_not_empty e rest :
  e <> EmptyString -> filepath.joinElements (e :: rest) <> EmptyString.
Proof.
  intros He. cbn [filepath.joinElements].
  destruct rest; [exact He|].
  destruct e; [contradiction|]. rewrite append_cons. discriminate.
Qed.

Lemma joinElements_no_trailing elems :
  Forall keptElement elems ->
  endsWithSeparator (filepath.joinElements elems) = false.
Proof.
  induction 1 as [|e rest [He Hsep] Hrest IH]; [reflexivity|].
  cbn [filepath.joinElements].
  destruct rest as [|e' rest']; [now apply no_separator_no_trailing|].
  inversion Hrest as [|? ? [He' _] _]; subst.
  pose proof (joinElements_not_empty e' rest' He') as Hne.
  rewrite endsWithSeparator_append, endsWithSeparator_append; auto.
Qed.

(** The result of [Clean] ends in a separator only if it is the root. *)
Lemma Clean_no_trailing path :
  filepath.Clean path = "/" \/ endsWithSeparator (filepath.Clean path) = false.
Proof.
  unfold filepath.Clean.
  destruct (String.eqb path EmptyString); [right; reflexivity|].
  set (kept := filepath.cleanElements _ [] _).
  assert (Hkept : Forall keptElement (rev kept)).
  { apply Forall_rev, cleanElements_kept;
      [apply elements_no_separator | constructor]. }
  pose proof (joinElements_no_trailing _ Hkept) as Hout.
  destruct (filepath.joinElements (rev kept)) as [|c out] eqn:Hj.
  - destruct (filepath.IsAbs path); [left | right]; reflexivity.
  - right. destruct (filepath.IsAbs path).
    + rewrite endsWithSeparator_append; [exact Hout | discriminate].
    + cbn [String.eqb]. exact Hout.
Qed.

Lemma Abs_no_trailing wd path :
  filepath.Abs wd path = "/"
  \/ endsWithSeparator (filepath.Abs wd path) = false.
Proof.
  unfold filepath.Abs. destruct (filepath.IsAbs path);
    [apply Clean_no_trailing|].
  cbn [filepath.Join].
  destruct (String.eqb wd EmptyString); [|apply Clean_no_trailing].
  destruct (String.eqb path EmptyString);
    [right; reflexivity | apply Clean_no_trailing].
Qed.

(** The separator that [prepareOutputPath] appends is lost: the output path
    it returns ends in no separator, unless it is the root. *)
Lemma prepareOutputPath_no_trailing w ofp :
  fst (prepareOutputPath w ofp) = "/"
  \/ endsWithSeparator (fst (prepareOutputPath w ofp)) = false.
Proof. unfold prepareOutputPath. cbn [fst]. apply Abs_no_trailing. Qed.

(** After a successful [VerifySettings] the file name is appended to an
    output path that ends in no separator, unless the directory is the
    root. *)
Lemma verified_output_path w s table :
  snd (VerifySettings w s) = None ->
  let s' := fst (VerifySettings w s) in
  outputFileName s' table
  = OutputFilePath s' +:+ structName s' table +:+ ".go"
  /\ (OutputFilePath s' = "/" \/ endsWithSeparator (OutputFilePath s') = false).
Proof.
  intros Hok s'. split; [reflexivity|].
  subst s'. revert Hok. unfold VerifySettings.
  destruct (negb (IsStringInSlice (DbType s) SupportedDbTypes));
    [discriminate|].
  destruct (negb (IsStringInSlice (OutputFormat s) SupportedOutputFormats));
    [discriminate|].
  destruct (verifyOutputPath w (OutputFilePath s)); [discriminate|].
  pose proof (prepareOutputPath_no_trailing w (OutputFilePath s)) as Hp.
  destruct (prepareOutputPath w (OutputFilePath s)) as [ofp [err|]];
    [discriminate|].
  cbn [fst] in Hp. cbn [Port PackageName setOutputFilePath].
  destruct (String.eqb (Port s) EmptyString);
    cbn [PackageName setPort setOutputFilePath];
    destruct (String.eqb (PackageName s) EmptyString);
    try discriminate; intros _; exact Hp.
Qed.

(** * Further properties *)

(** ** The mapping table *)

(** X1: the mapping table.  A raw type of a family maps to the plain type of
    the family, or under the flag "YES" to its nullable type; only the
    temporal family sets the temporal flag.  No label of a later case is
    shadowed by an earlier one. *)
Theorem mapDbColumnTypeToGoType_table :
  forall (dbDataType isNullable : string) (family : list string)
         (plain nullable : string) (temporal : bool),
    In (family, plain, nullable, temporal)
       [ (integerTypes, "int", "sql.NullInt64", false);
         (floatTypes, "float64", "sql.NullFloat64", false);
         (textTypes, "string", "sql.NullString", false);
         (temporalTypes, "time.Time", "pq.NullTime", true);
         (booleanTypes, "bool", "sql.NullBool", false) ] ->
    In dbDataType family ->
    mapDbColumnTypeToGoType dbDataType isNullable
    = (if String.eqb isNullable "YES" then nullable else plain, temporal).
Proof.
  intros dbDataType isNullable family plain nullable temporal Hrow Hin.
  unfold mapDbColumnTypeToGoType.
  cbn in Hrow.
  repeat destruct Hrow as [Hrow|Hrow]; try contradiction;
    injection Hrow as <- <- <- <-;
    cbn in Hin; repeat destruct Hin as [Hin|Hin]; try contradiction;
    subst dbDataType; destruct (String.eqb isNullable "YES"); reflexivity.
Qed.

Lemma mapDbColumnTypeToGoType_table_witness :
  mapDbColumnTypeToGoType "datetime" "YES" = ("pq.NullTime", true)
  /\ mapDbColumnTypeToGoType "varbinary" "NO" = ("string", false).
Proof.
  split.
  - apply (mapDbColumnTypeToGoType_table "datetime" "YES" temporalTypes
             "time.Time" "pq.NullTime" true); cbn; tauto.
  - apply (mapDbColumnTypeToGoType_table "varbinary" "NO" textTypes
             "string" "sql.NullString" false); cbn; tauto.
Defined.

(** X2: the temporal flag is set exactly for the raw types of the temporal
    family, whatever the nullability flag, and exactly when the field type
    returned is one of the two time types. *)
Theorem mapDbColumnTypeToGoType_temporal :
  forall dbDataType isNullable : string,
    (snd (mapDbColumnTypeToGoType dbDataType isNullable) = true
     <-> In dbDataType temporalTypes)
    /\ (snd (mapDbColumnTypeToGoType dbDataType isNullable) = true
        <-> In (fst (mapDbColumnTypeToGoType dbDataType isNullable))
              ["time.Time"; "pq.NullTime"]).
Proof.
  intros dbDataType isNullable. split.
  - rewrite mapDbColumnTypeToGoType_isTime. apply case_In.
  - unfold mapDbColumnTypeToGoType.
    split_cases; destruct (String.eqb isNullable "YES"); cbn;
      intuition discriminate.
Qed.

(** ** The struct and its fields *)

Lemma columnStep_annotation_off settings vars column :
  annotationsEnabled settings = false ->
  mastermindStructableAnnotation (columnStep settings vars column)
  = mastermindStructableAnnotation vars.
Proof.
  unfold annotationsEnabled, columnStep. intros ->.
  destruct (mapDbColumnTypeToGoType _ _). reflexivity.
Qed.

Lemma columnStep_colBuffer settings vars column :
  (annotationsEnabled settings = false ->
   mastermindStructableAnnotation vars = EmptyString) ->
  colBuffer (columnStep settings vars column)
  = colBuffer vars +:+ fieldLine settings column.
Proof.
  intros Hinv. unfold columnStep, fieldLine, fieldTags, fieldName.
  destruct (mapDbColumnTypeToGoType _ _) as [colType isTime].
  cbn [colBuffer fst]. f_equal.
  unfold annotationsEnabled in *.
  destruct (IsMastermindStructableOnly settings).
  - rewrite orb_true_r, append_nil.
    destruct (String.eqb (OutputFormat settings) "c"); reflexivity.
  - rewrite orb_false_r in *.
    destruct (IsMastermindStructable settings).
    + destruct (String.eqb (OutputFormat settings) "c");
        now rewrite !append_assoc.
    + rewrite (Hinv eq_refl).
      destruct (String.eqb (OutputFormat settings) "c");
        now rewrite !append_assoc.
Qed.

Lemma loop_colBuffer settings columns : forall vars,
  (annotationsEnabled settings = false ->
   mastermindStructableAnnotation vars = EmptyString) ->
  colBuffer (fold_left (columnStep settings) columns vars)
  = colBuffer vars +:+ joinLines (map (fieldLine settings) columns).
Proof.
  induction columns as [|column columns IH]; intros vars Hinv;
    cbn [fold_left map joinLines fold_right].
  - now rewrite append_nil_r.
  - rewrite IH.
    + rewrite columnStep_colBuffer by exact Hinv. apply append_assoc.
    + intros Hoff. rewrite columnStep_annotation_off by exact Hoff. auto.
Qed.

(** X3: the layout of the generated file.  It is the package clause, the
    import block, and the struct with one line per column in column order,
    each line made from its own column and the settings alone (the annotation
    variable declared outside the loop carries nothing from one column to the
    next), then the recorder line if the recorder is active. *)
Theorem generatedSource_layout :
  forall (settings : Settings) (table : Table),
    generatedSource settings table
    = "package " +:+ PackageName settings +:+ NL +:+ NL
      +:+ tableImportBlock settings table
      +:+ "type " +:+ structName settings table +:+ " struct {" +:+ NL
      +:+ joinLines (map (fieldLine settings) (Columns table))
      +:+ recorderLine settings
      +:+ "}".
Proof.
  intros settings table.
  assert (Hbuf : colBuffer (columnsLoop settings (Columns table))
                 = joinLines (map (fieldLine settings) (Columns table))).
  { unfold columnsLoop. rewrite loop_colBuffer by reflexivity.
    apply append_nil. }
  unfold generatedSource, tableImportBlock, recorderLine. cbn zeta.
  rewrite Hbuf.
  destruct (recorderActive settings).
  - now rewrite !append_assoc.
  - now rewrite append_nil.
Qed.

(** X4: the struct of a table is the struct of its first columns followed
    by the lines of the columns after them: emitting fields is a
    homomorphism from column lists to text. *)
Theorem columnsLoop_append :
  forall (settings : Settings) (front back : list Column),
    colBuffer (columnsLoop settings (front ++ back))
    = colBuffer (columnsLoop settings front)
      +:+ colBuffer (columnsLoop settings back)
    /\ isNullable (columnsLoop settings (front ++ back))
       = isNullable (columnsLoop settings front)
         || isNullable (columnsLoop settings back)
    /\ timeIndicator (columnsLoop settings (front ++ back))
       = timeIndicator (columnsLoop settings front)
         + timeIndicator (columnsLoop settings back).
Proof.
  intros settings front back. unfold columnsLoop. repeat split.
  - rewrite !loop_colBuffer by reflexivity. rewrite !append_nil.
    rewrite map_app. unfold joinLines.
    induction (map (fieldLine settings) front) as [|l ls IH]; cbn [app fold_right].
    + now rewrite append_nil.
    + now rewrite IH, append_assoc.
  - rewrite !loop_isNullable. cbn [isNullable initialColumnsInfo orb].
    apply existsb_app.
  - rewrite fold_left_app.
    generalize (fold_left (columnStep settings) front initialColumnsInfo).
    induction back as [|column back IH] using rev_ind; intros vars.
    + cbn. lia.
    + rewrite !fold_left_app. cbn [fold_left].
      rewrite !columnStep_timeIndicator, IH. lia.
Qed.

(** X5: the counter of the loop is the number of temporal columns of the
    table; it lies between zero and the number of columns. *)
Theorem timeIndicator_counts :
  forall (settings : Settings) (columns : list Column),
    timeIndicator (columnsLoop settings columns)
    = Z.of_nat (List.length (List.filter columnTemporal columns))
    /\ 0 <= timeIndicator (columnsLoop settings columns)
       <= Z.of_nat (List.length columns).
Proof.
  intros settings columns. split.
  - unfold columnsLoop.
    change (Z.of_nat (List.length (List.filter columnTemporal columns)))
      with (timeIndicator initialColumnsInfo
            + Z.of_nat (List.length (List.filter columnTemporal columns))).
    generalize initialColumnsInfo.
    induction columns as [|column columns IH]; intros vars;
      cbn [fold_left List.filter].
    + cbn. lia.
    + rewrite IH, columnStep_timeIndicator.
      destruct (columnTemporal column); cbn [List.length]; lia.
  - pose proof (loop_timeIndicator_bounds settings columns initialColumnsInfo)
      as H. exact H.
Qed.

(** ** The imports *)

(** X6: what the import block imports.  Each of the four packages stands in
    the block at most once: [database/sql] exactly when some column is
    nullable, [github.com/lib/pq] exactly when some column is nullable and
    some column is temporal, [time] exactly when some column is temporal and
    none is nullable, and the recorder package exactly when the recorder
    line is embedded in the struct. *)
Theorem import_block_contents :
  forall (settings : Settings) (table : Table),
    let block := tableImportBlock settings table in
    countOccurrences block (importOf "database/sql")
    = boolCount (anyNullable table)
    /\ countOccurrences block (importOf "github.com/lib/pq")
       = boolCount (anyNullable table && anyTemporal table)
    /\ countOccurrences block (importOf "time")
       = boolCount (negb (anyNullable table) && anyTemporal table)
    /\ countOccurrences block (importOf "github.com/Masterminds/structable")
       = boolCount (negb (String.eqb (recorderLine settings) EmptyString)).
Proof.
  intros settings table block. subst block.
  unfold tableImportBlock, importBlock, recorderLine, recorderActive.
  rewrite columnsLoop_isNullable, columnsLoop_timeIndicator.
  destruct (anyNullable table), (anyTemporal table),
    (IsMastermindStructable settings), (IsMastermindStructableOnly settings),
    (IsMastermindStructableRecorder settings);
    vm_compute; repeat split; reflexivity.
Qed.

(** ** Settings verification *)

Lemma verifyOutputPath_ok w outputFilePath :
  verifyOutputPath w outputFilePath = None
  <-> outputFilePath <> EmptyString
      /\ os.nodes w !! filepath.Abs (os.wd w) outputFilePath
         = Some os.Directory.
Proof.
  unfold verifyOutputPath, os.Stat.
  destruct (String.eqb outputFilePath EmptyString) eqn:He.
  - apply String.eqb_eq in He. cbn. split; [discriminate | tauto].
  - apply String.eqb_neq in He.
    destruct (os.nodes w !! filepath.Abs (os.wd w) outputFilePath)
      as [[|content]|]; cbn; split; intros H;
      try discriminate; try tauto; destruct H as [_ H]; discriminate.
Qed.

(** Past its three checks [VerifySettings] prepares the settings and then
    tests the package name. *)
Lemma VerifySettings_checked w s :
  IsStringInSlice (DbType s) SupportedDbTypes = true ->
  IsStringInSlice (OutputFormat s) SupportedOutputFormats = true ->
  verifyOutputPath w (OutputFilePath s) = None ->
  VerifySettings w s
  = (preparedSettings w s,
     if String.eqb (PackageName s) EmptyString then Some PackageNameEmpty
     else None).
Proof.
  intros Hdb Hfmt Hdir. unfold VerifySettings, preparedSettings.
  rewrite Hdb, Hfmt, Hdir. cbn [negb]. unfold prepareOutputPath.
  cbn [Port PackageName setOutputFilePath].
  destruct (String.eqb (Port s) EmptyString);
    cbn [PackageName setPort setOutputFilePath];
    destruct (String.eqb (PackageName s) EmptyString); reflexivity.
Qed.

Lemma default_port_not_empty dbType :
  In dbType SupportedDbTypes ->
  mapIndex DbDefaultPorts dbType <> EmptyString
  /\ mapIndex DbTypeToDriverMap dbType <> EmptyString.
Proof.
  cbn. intros [<-|[<-|[]]]; vm_compute; split; discriminate.
Qed.

Lemma preparedSettings_port w s :
  In (DbType s) SupportedDbTypes ->
  Port (preparedSettings w s) <> EmptyString.
Proof.
  intros Hdb. unfold preparedSettings. cbn zeta.
  destruct (String.eqb (Port s) EmptyString) eqn:Hp; cbn.
  - now apply default_port_not_empty.
  - now apply String.eqb_neq.
Qed.

(** The paths [throughDirectories] tells apart in [notesWorld]: the file
    itself is a path through directories, a path below the file or one that
    asks for a directory of that name is not. *)
Example throughDirectories_notes :
  throughDirectories notesWorld "notes" = true
  /\ throughDirectories notesWorld "./output" = true
  /\ throughDirectories notesWorld "notes/output" = false
  /\ throughDirectories notesWorld "notes/" = false
  /\ throughDirectories notesWorld "notes/." = false.
Proof. vm_compute. repeat split. Qed.

(** X7: in an absolute working directory that has no [..] element, and for
    an output path that has no [..] element and runs through directories
    only, so that the path cleaned is the node the operating system resolves
    it to and [os.Stat] fails with no error but not-exist, [VerifySettings]
    returns no error exactly when the dialect and the output format are
    supported, the output path names an existing directory, and the package
    name is not empty. *)
Theorem VerifySettings_ok_iff :
  forall (w : os.World) (s : Settings),
    filepath.IsAbs (os.wd w) = true ->
    noParentElement (os.wd w) = true ->
    noParentElement (OutputFilePath s) = true ->
    throughDirectories w (OutputFilePath s) = true ->
    (snd (VerifySettings w s) = None
     <-> In (DbType s) SupportedDbTypes
         /\ In (OutputFormat s) SupportedOutputFormats
         /\ outputDirectoryExists w s
         /\ PackageName s <> EmptyString).
Proof.
  intros w s _ _ _ _.
  unfold outputDirectoryExists.
  rewrite <- !IsStringInSlice_In, <- verifyOutputPath_ok.
  destruct (IsStringInSlice (DbType s) SupportedDbTypes) eqn:Hdb.
  2:{ unfold VerifySettings. rewrite Hdb. cbn.
      split; [discriminate | intros (H & _); discriminate]. }
  destruct (IsStringInSlice (OutputFormat s) SupportedOutputFormats) eqn:Hfmt.
  2:{ unfold VerifySettings. rewrite Hdb, Hfmt. cbn.
      split; [discriminate | intros (_ & H & _); discriminate]. }
  destruct (verifyOutputPath w (OutputFilePath s)) eqn:Hdir.
  { unfold VerifySettings. rewrite Hdb, Hfmt, Hdir. cbn.
    split; [discriminate | intros (_ & _ & H & _); discriminate]. }
  rewrite (VerifySettings_checked _ _ Hdb Hfmt Hdir). cbn [snd].
  destruct (String.eqb (PackageName s) EmptyString) eqn:Hp.
  - apply String.eqb_eq in Hp.
    split; [discriminate | intros (_ & _ & _ & H); contradiction].
  - apply String.eqb_neq in Hp. tauto.
Qed.

Lemma VerifySettings_ok_iff_witness :
  snd (VerifySettings homeWorld NewSettings) = None.
Proof.
  apply (VerifySettings_ok_iff homeWorld NewSettings eq_refl eq_refl eq_refl
           eq_refl).
  unfold outputDirectoryExists.
  split; [cbn; tauto|]. split; [cbn; tauto|].
  split; [|discriminate]. split; [discriminate | reflexivity].
Defined.

(** X8: a rejection for the dialect, the output format or the output path
    comes before any assignment: when [VerifySettings] returns an error
    other than the empty package name, the settings are untouched. *)
Theorem VerifySettings_rejection_untouched :
  forall (w : os.World) (s : Settings) (err : Error),
    snd (VerifySettings w s) = Some err ->
    err <> PackageNameEmpty ->
    fst (VerifySettings w s) = s.
Proof.
  intros w s err.
  destruct (IsStringInSlice (DbType s) SupportedDbTypes) eqn:Hdb;
    [|unfold VerifySettings; rewrite Hdb; reflexivity].
  destruct (IsStringInSlice (OutputFormat s) SupportedOutputFormats) eqn:Hfmt;
    [|unfold VerifySettings; rewrite Hdb, Hfmt; reflexivity].
  destruct (verifyOutputPath w (OutputFilePath s)) eqn:Hdir;
    [unfold VerifySettings; rewrite Hdb, Hfmt, Hdir; reflexivity|].
  rewrite (VerifySettings_checked _ _ Hdb Hfmt Hdir). cbn [snd fst].
  destruct (String.eqb (PackageName s) EmptyString);
    intros H Hne; [injection H as <-; contradiction | discriminate].
Qed.

Lemma VerifySettings_rejection_untouched_witness :
  fst (VerifySettings homeWorld (settingsWith "oracle" "c" false false false))
  = settingsWith "oracle" "c" false false false.
Proof.
  apply (VerifySettings_rejection_untouched homeWorld _
           (DbTypeNotSupported "oracle")); [reflexivity | discriminate].
Defined.

(** X9: the package name is checked last.  In an absolute working
    directory that has no [..] element, and for an output path that has no
    [..] element, when everything else is valid and the package name is
    empty, [VerifySettings] returns the error, and the settings behind the
    pointer already hold the absolute output path and a port that is not
    empty. *)
Theorem VerifySettings_empty_package_name :
  forall (w : os.World) (s : Settings),
    filepath.IsAbs (os.wd w) = true ->
    noParentElement (os.wd w) = true ->
    noParentElement (OutputFilePath s) = true ->
    In (DbType s) SupportedDbTypes ->
    In (OutputFormat s) SupportedOutputFormats ->
    outputDirectoryExists w s ->
    PackageName s = EmptyString ->
    snd (VerifySettings w s) = Some PackageNameEmpty
    /\ OutputFilePath (fst (VerifySettings w s))
       = filepath.Abs (os.wd w) (OutputFilePath s +:+ "/")
    /\ Port (fst (VerifySettings w s)) <> EmptyString.
Proof.
  intros w s _ _ _ Hdb Hfmt Hdir Hpkg.
  pose proof (preparedSettings_port w s Hdb) as Hport.
  apply IsStringInSlice_In in Hdb, Hfmt. apply verifyOutputPath_ok in Hdir.
  rewrite (VerifySettings_checked _ _ Hdb Hfmt Hdir), Hpkg. cbn [snd fst].
  split; [reflexivity|]. split; [|exact Hport].
  unfold preparedSettings. cbn zeta.
  destruct (String.eqb (Port s) EmptyString); reflexivity.
Qed.

Lemma VerifySettings_empty_package_name_witness :
  let s := setPort EmptyString
             (settingsWith "mysql" "o" false false false) in
  let s0 :=
    {| Verbose := Verbose s; DbType := DbType s; User := User s;
       Pswd := Pswd s; DbName := DbName s; Schema := Schema s;
       Host := Host s; Port := Port s; OutputFilePath := OutputFilePath s;
       OutputFormat := OutputFormat s; PackageName := EmptyString;
       Prefix := Prefix s; Suffix := Suffix s;
       IsMastermindStructable := false; IsMastermindStructableOnly := false;
       IsMastermindStructableRecorder := false |} in
  snd (VerifySettings homeWorld s0) = Some PackageNameEmpty
  /\ OutputFilePath (fst (VerifySettings homeWorld s0)) = "/home/user/output"
  /\ Port (fst (VerifySettings homeWorld s0)) <> EmptyString.
Proof.
  intros s s0.
  apply (VerifySettings_empty_package_name homeWorld s0 eq_refl eq_refl
           eq_refl).
  - cbn. tauto.
  - cbn. tauto.
  - split; [discriminate | reflexivity].
  - reflexivity.
Defined.

(** ** Clean paths *)

Lemma elements_not_nil path : filepath.elements path <> [].
Proof.
  destruct path as [|c path]; cbn [filepath.elements]; [discriminate|].
  destruct (Ascii.eqb c filepath.Separator); [discriminate|].
  destruct (filepath.elements path); discriminate.
Qed.

(** A separator at the end of a path adds one empty element. *)
Lemma elements_trailing_separator path :
  filepath.elements (path +:+ "/")
  = (filepath.elements path ++ [EmptyString])%list.
Proof.
  induction path as [|c path IH]; [reflexivity|].
  rewrite append_cons. cbn [filepath.elements]. rewrite IH.
  destruct (Ascii.eqb c filepath.Separator); [reflexivity|].
  pose proof (elements_not_nil path) as Hne.
  destruct (filepath.elements path); [contradiction | reflexivity].
Qed.

(** An element free of separators, followed by a separator, is the first
    element of the path. *)
Lemma elements_first e rest :
  hasSeparator e = false ->
  filepath.elements (e +:+ "/" +:+ rest) = e :: filepath.elements rest.
Proof.
  induction e as [|c e IH]; intros Hsep.
  - reflexivity.
  - cbn [hasSeparator] in Hsep. apply orb_false_iff in Hsep as [Hc He].
    rewrite append_cons. cbn [filepath.elements]. rewrite Hc, (IH He).
    reflexivity.
Qed.

Lemma elements_single e :
  hasSeparator e = false -> filepath.elements e = [e].
Proof.
  induction e as [|c e IH]; intros Hsep; [reflexivity|].
  cbn [hasSeparator] in Hsep. apply orb_false_iff in Hsep as [Hc He].
  cbn [filepath.elements]. now rewrite Hc, (IH He).
Qed.

(** Splitting undoes joining: the elements of the joined path are the
    elements joined. *)
Lemma elements_joinElements elems :
  elems <> [] ->
  Forall (fun e => hasSeparator e = false) elems ->
  filepath.elements (filepath.joinElements elems) = elems.
Proof.
  intros Hne Hall. induction Hall as [|e rest He Hrest IH]; [contradiction|].
  cbn [filepath.joinElements]. destruct rest as [|e' rest'].
  - now apply elements_single.
  - rewrite elements_first by exact He. f_equal. apply IH. discriminate.
Qed.

Lemma cleanElements_app rooted front back : forall out,
  filepath.cleanElements rooted out (front ++ back)
  = filepath.cleanElements rooted (filepath.cleanElements rooted out front)
      back.
Proof.
  induction front as [|e front IH]; intros out; [reflexivity|].
  cbn [app filepath.cleanElements].
  destruct (String.eqb e EmptyString); [apply IH|].
  destruct (String.eqb e "."); [apply IH|].
  destruct (String.eqb e "..").
  - destruct out as [|top out'].
    + destruct rooted; apply IH.
    + destruct (String.eqb top ".."); apply IH.
  - apply IH.
Qed.

(** Plain elements are kept as they come. *)
Lemma cleanElements_plain rooted elems : forall out,
  Forall plainElement elems ->
  filepath.cleanElements rooted out elems = (rev elems ++ out)%list.
Proof.
  induction elems as [|e elems IH]; intros out Hall; [reflexivity|].
  inversion Hall as [|? ? (He & Hdot & Hdots & _) Hrest]; subst.
  cbn [filepath.cleanElements rev].
  apply String.eqb_neq in He, Hdot, Hdots. rewrite He, Hdot, Hdots.
  rewrite IH by exact Hrest. now rewrite <- app_assoc.
Qed.

(** In a rooted path only plain elements are kept. *)
Lemma cleanElements_rooted_plain elems : forall out,
  Forall (fun e => hasSeparator e = false) elems ->
  Forall plainElement out ->
  Forall plainElement (filepath.cleanElements true out elems).
Proof.
  induction elems as [|e elems IH]; intros out Helems Hout;
    cbn [filepath.cleanElements]; [exact Hout|].
  inversion Helems as [|? ? He Hrest]; subst.
  destruct (String.eqb e EmptyString) eqn:H0; [now apply IH|].
  destruct (String.eqb e ".") eqn:H1; [now apply IH|].
  destruct (String.eqb e "..") eqn:H2.
  - destruct out as [|top out']; [now apply IH|].
    inversion Hout; subst.
    destruct (String.eqb top "..") eqn:Htop.
    + apply String.eqb_eq in Htop. subst top.
      match goal with H : plainElement ".." |- _ =>
        destruct H as (_ & _ & Hdd & _); contradiction end.
    + now apply IH.
  - apply IH; [exact Hrest|]. constructor; [|exact Hout].
    apply String.eqb_neq in H0, H1, H2. repeat split; assumption.
Qed.

Lemma IsAbs_cons path : filepath.IsAbs path = true ->
  exists rest, path = "/" +:+ rest.
Proof.
  unfold filepath.IsAbs. destruct path as [|c path]; [discriminate|].
  intros H. destruct (ascii_dec "/" c) as [<-|Hne]; [now exists path|].
  exfalso. revert H. unfold String.prefix.
  destruct (ascii_dec "/" c); [contradiction | discriminate].
Qed.

Lemma IsAbs_String c rest :
  filepath.IsAbs (String c rest) = if ascii_dec "/" c then true else false.
Proof.
  unfold filepath.IsAbs. cbn [String.prefix].
  destruct (ascii_dec "/" c); [destruct rest|]; reflexivity.
Qed.

Lemma IsAbs_root rest : filepath.IsAbs ("/" +:+ rest) = true.
Proof.
  rewrite append_cons, append_nil. unfold filepath.IsAbs, String.prefix.
  destruct (ascii_dec "/" "/"); [|contradiction].
  destruct rest; reflexivity.
Qed.

(** A rooted path cleans to the root followed by plain elements. *)
Lemma Clean_rooted path :
  filepath.IsAbs path = true ->
  exists elems,
    Forall plainElement elems
    /\ filepath.Clean path = "/" +:+ filepath.joinElements elems.
Proof.
  intros Habs. unfold filepath.Clean. rewrite Habs.
  destruct (IsAbs_cons _ Habs) as [rest ->].
  cbn [String.eqb].
  replace (String.eqb ("/" +:+ rest) EmptyString) with false by reflexivity.
  eexists. split; [|reflexivity].
  apply Forall_rev, cleanElements_rooted_plain;
    [apply elements_no_separator | constructor].
Qed.

Lemma plain_no_separator elems :
  Forall plainElement elems ->
  Forall (fun e => hasSeparator e = false) elems.
Proof.
  induction 1 as [|e rest (_ & _ & _ & He) _ IH]; constructor; assumption.
Qed.

(** The root followed by plain elements is clean already. *)
Lemma Clean_of_clean elems :
  Forall plainElement elems ->
  filepath.Clean ("/" +:+ filepath.joinElements elems)
  = "/" +:+ filepath.joinElements elems.
Proof.
  intros Hall. unfold filepath.Clean.
  replace (String.eqb ("/" +:+ filepath.joinElements elems) EmptyString)
    with false by reflexivity.
  rewrite IsAbs_root.
  f_equal. f_equal.
  change ("/" +:+ filepath.joinElements elems)
    with (EmptyString +:+ "/" +:+ filepath.joinElements elems).
  rewrite elements_first by reflexivity. cbn [filepath.cleanElements String.eqb].
  destruct elems as [|e elems'].
  - reflexivity.
  - rewrite elements_joinElements;
      [|discriminate | now apply plain_no_separator].
    rewrite cleanElements_plain by exact Hall.
    now rewrite app_nil_r, rev_involutive.
Qed.

(** [Clean] is idempotent on rooted paths, and a rooted path stays rooted. *)
Lemma Clean_idempotent path :
  filepath.IsAbs path = true ->
  filepath.Clean (filepath.Clean path) = filepath.Clean path
  /\ filepath.IsAbs (filepath.Clean path) = true.
Proof.
  intros Habs. destruct (Clean_rooted _ Habs) as (elems & Hall & ->).
  split; [now apply Clean_of_clean | apply IsAbs_root].
Qed.

(** A separator at the end of a path does not change what it cleans to. *)
Lemma Clean_trailing_separator path :
  path <> EmptyString ->
  filepath.Clean (path +:+ "/") = filepath.Clean path.
Proof.
  intros Hne. unfold filepath.Clean.
  destruct path as [|c path]; [contradiction|].
  rewrite append_cons. cbn [String.eqb].
  rewrite !IsAbs_String.
  rewrite <- append_cons, elements_trailing_separator, cleanElements_app.
  reflexivity.
Qed.

(** In an absolute working directory [Abs] cleans a rooted path. *)
Lemma Abs_rooted wd path :
  filepath.IsAbs wd = true ->
  exists rooted,
    filepath.IsAbs rooted = true
    /\ filepath.Abs wd path = filepath.Clean rooted.
Proof.
  intros Hwd. unfold filepath.Abs.
  destruct (filepath.IsAbs path) eqn:Hp; [now exists path|].
  destruct (IsAbs_cons _ Hwd) as [rest ->].
  exists ("/" +:+ rest +:+ "/" +:+ path). split; [apply IsAbs_root|].
  cbn [filepath.Join filepath.joinElements].
  replace (String.eqb ("/" +:+ rest) EmptyString) with false by reflexivity.
  now rewrite append_assoc.
Qed.

Lemma Abs_idempotent wd path :
  filepath.IsAbs wd = true ->
  filepath.Abs wd (filepath.Abs wd path) = filepath.Abs wd path
  /\ filepath.IsAbs (filepath.Abs wd path) = true.
Proof.
  intros Hwd. destruct (Abs_rooted wd path Hwd) as (rooted & Hr & ->).
  destruct (Clean_idempotent _ Hr) as [Hidem Habs].
  split; [|exact Habs].
  unfold filepath.Abs at 1. now rewrite Habs.
Qed.

Lemma Abs_trailing_separator wd path :
  filepath.IsAbs wd = true ->
  path <> EmptyString ->
  filepath.Abs wd (path +:+ "/") = filepath.Abs wd path.
Proof.
  intros Hwd Hne. unfold filepath.Abs.
  destruct path as [|c path]; [contradiction|].
  rewrite append_cons, !IsAbs_String, <- append_cons.
  destruct (ascii_dec "/" c); [now apply Clean_trailing_separator|].
  destruct (IsAbs_cons _ Hwd) as [rest ->].
  cbn [filepath.Join filepath.joinElements].
  replace (String.eqb ("/" +:+ rest) EmptyString) with false by reflexivity.
  rewrite <- !append_assoc. apply Clean_trailing_separator.
  rewrite !append_assoc, append_cons. discriminate.
Qed.

Lemma preparedSettings_path w s :
  OutputFilePath (preparedSettings w s)
  = filepath.Abs (os.wd w) (OutputFilePath s +:+ "/").
Proof.
  unfold preparedSettings. cbn zeta.
  destruct (String.eqb (Port s) EmptyString); reflexivity.
Qed.

(** When [VerifySettings] returns no error its result is the prepared
    settings, and its three checks have passed. *)
Lemma VerifySettings_ok_prepared w s :
  snd (VerifySettings w s) = None ->
  VerifySettings w s = (preparedSettings w s, None)
  /\ IsStringInSlice (DbType s) SupportedDbTypes = true
  /\ IsStringInSlice (OutputFormat s) SupportedOutputFormats = true
  /\ verifyOutputPath w (OutputFilePath s) = None
  /\ String.eqb (PackageName s) EmptyString = false.
Proof.
  destruct (IsStringInSlice (DbType s) SupportedDbTypes) eqn:Hdb;
    [|unfold VerifySettings; rewrite Hdb; discriminate].
  destruct (IsStringInSlice (OutputFormat s) SupportedOutputFormats) eqn:Hfmt;
    [|unfold VerifySettings; rewrite Hdb, Hfmt; discriminate].
  destruct (verifyOutputPath w (OutputFilePath s)) eqn:Hdir;
    [unfold VerifySettings; rewrite Hdb, Hfmt, Hdir; discriminate|].
  rewrite (VerifySettings_checked _ _ Hdb Hfmt Hdir). cbn [snd].
  destruct (String.eqb (PackageName s) EmptyString); [discriminate | auto].
Qed.

(** What the prepared settings of a successful verification hold. *)
Lemma preparedSettings_verified w s :
  filepath.IsAbs (os.wd w) = true ->
  snd (VerifySettings w s) = None ->
  Port (preparedSettings w s) <> EmptyString
  /\ DbType (preparedSettings w s) = DbType s
  /\ OutputFilePath (preparedSettings w s)
     = filepath.Abs (os.wd w) (OutputFilePath s)
  /\ filepath.IsAbs (OutputFilePath (preparedSettings w s)) = true
  /\ os.nodes w !! OutputFilePath (preparedSettings w s) = Some os.Directory.
Proof.
  intros Hwd Hok.
  destruct (VerifySettings_ok_prepared _ _ Hok) as (_ & Hdb & _ & Hdir & _).
  apply IsStringInSlice_In in Hdb.
  apply verifyOutputPath_ok in Hdir as [Hne Hdir].
  rewrite preparedSettings_path, Abs_trailing_separator by assumption.
  split; [now apply preparedSettings_port|].
  split.
  { unfold preparedSettings; cbn zeta.
    destruct (String.eqb (Port s) EmptyString); reflexivity. }
  split; [reflexivity|].
  split; [now apply Abs_idempotent | exact Hdir].
Qed.

(** X10: what verified settings guarantee.  When [VerifySettings] returns no
    error in an absolute working directory, the settings it leaves have a
    port that is not empty, a dialect with a driver, and as output path the
    absolute clean path of the directory configured, which is the key of
    that directory in the file system. *)
Theorem VerifySettings_verified :
  forall (w : os.World) (s : Settings),
    filepath.IsAbs (os.wd w) = true ->
    snd (VerifySettings w s) = None ->
    let s' := fst (VerifySettings w s) in
    Port s' <> EmptyString
    /\ mapIndex DbTypeToDriverMap (DbType s') <> EmptyString
    /\ OutputFilePath s' = filepath.Abs (os.wd w) (OutputFilePath s)
    /\ filepath.IsAbs (OutputFilePath s') = true
    /\ os.nodes w !! OutputFilePath s' = Some os.Directory.
Proof.
  intros w s Hwd Hok s'. subst s'.
  destruct (preparedSettings_verified w s Hwd Hok)
    as (Hport & Hdb & Hpath & Habs & Hnode).
  destruct (VerifySettings_ok_prepared _ _ Hok) as (-> & Hin & _).
  cbn [fst]. apply IsStringInSlice_In in Hin.
  split; [exact Hport|].
  split; [rewrite Hdb; now apply default_port_not_empty|].
  auto.
Qed.

Lemma VerifySettings_verified_witness :
  Port (fst (VerifySettings homeWorld NewSettings)) <> EmptyString
  /\ OutputFilePath (fst (VerifySettings homeWorld NewSettings))
     = "/home/user/output".
Proof.
  destruct (VerifySettings_verified homeWorld NewSettings eq_refl eq_refl)
    as (Hport & _ & Hpath & _).
  split; [exact Hport | exact Hpath].
Defined.

(** X11: [VerifySettings] is idempotent.  Verifying again the settings that a
    successful verification left, in the same absolute working directory,
    succeeds and changes nothing. *)
Theorem VerifySettings_idempotent :
  forall (w : os.World) (s : Settings),
    filepath.IsAbs (os.wd w) = true ->
    snd (VerifySettings w s) = None ->
    VerifySettings w (fst (VerifySettings w s))
    = (fst (VerifySettings w s), None).
Proof.
  intros w s Hwd Hok.
  pose proof (preparedSettings_verified w s Hwd Hok)
    as (Hport & _ & Hpath & Habs & Hnode).
  destruct (VerifySettings_ok_prepared _ _ Hok)
    as (Heq & Hdb & Hfmt & Hdir & Hpkg).
  rewrite Heq. cbn [fst].
  apply verifyOutputPath_ok in Hdir as [Hne Hdir].
  assert (Hfields : DbType (preparedSettings w s) = DbType s
                    /\ OutputFormat (preparedSettings w s) = OutputFormat s
                    /\ PackageName (preparedSettings w s) = PackageName s).
  { unfold preparedSettings. cbn zeta.
    destruct (String.eqb (Port s) EmptyString); repeat split. }
  destruct Hfields as (Hf1 & Hf2 & Hf3).
  assert (Hself : filepath.Abs (os.wd w) (OutputFilePath (preparedSettings w s))
                  = OutputFilePath (preparedSettings w s)).
  { rewrite Hpath. now apply Abs_idempotent. }
  assert (Hne' : OutputFilePath (preparedSettings w s) <> EmptyString).
  { intros Hempty. rewrite Hempty in Habs. discriminate. }
  rewrite VerifySettings_checked.
  - rewrite Hf3, Hpkg. f_equal.
    unfold preparedSettings at 1. cbn zeta.
    apply String.eqb_neq in Hport. rewrite Hport.
    rewrite Abs_trailing_separator, Hself by assumption.
    unfold preparedSettings. cbn zeta.
    destruct (String.eqb (Port s) EmptyString); reflexivity.
  - now rewrite Hf1.
  - now rewrite Hf2.
  - apply verifyOutputPath_ok. split; [exact Hne'|].
    now rewrite Hself.
Qed.

Lemma VerifySettings_idempotent_witness :
  VerifySettings homeWorld (fst (VerifySettings homeWorld NewSettings))
  = (fst (VerifySettings homeWorld NewSettings), None).
Proof.
  exact (VerifySettings_idempotent homeWorld NewSettings eq_refl eq_refl).
Defined.

(** X12: the dialect tables agree.  For a supported dialect the driver and
    the form of the data source name go together: the MySQL driver with the
    [tcp] form, the Postgres driver with the key-value form; the default
    branch of the switch is reached by "pg" alone. *)
Theorem prepareDataSourceName_dialect :
  forall s : Settings,
    In (DbType s) SupportedDbTypes ->
    (mapIndex DbTypeToDriverMap (DbType s) = "mysql"
     /\ mapIndex DbDefaultPorts (DbType s) = "3306"
     /\ prepareDataSourceName s
        = User s +:+ ":" +:+ Pswd s +:+ "@tcp(" +:+ Host s +:+ ":" +:+ Port s
          +:+ ")/" +:+ DbName s)
    \/ (mapIndex DbTypeToDriverMap (DbType s) = "postgres"
        /\ mapIndex DbDefaultPorts (DbType s) = "5432"
        /\ prepareDataSourceName s
           = "host=" +:+ Host s +:+ " port=" +:+ Port s +:+ " user=" +:+ User s
             +:+ " dbname=" +:+ DbName s +:+ " password=" +:+ Pswd s
             +:+ " sslmode=disable").
Proof.
  intros s Hdb. unfold prepareDataSourceName. cbn in Hdb.
  destruct Hdb as [<-|[<-|[]]]; [right | left]; repeat split.
Qed.

Lemma prepareDataSourceName_dialect_witness :
  prepareDataSourceName NewSettings
  = "host=127.0.0.1 port=5432 user=postgres dbname=postgres password= sslmode=disable".
Proof.
  destruct (prepareDataSourceName_dialect NewSettings) as [(H & _)|(_ & _ & H)].
  - cbn. tauto.
  - discriminate H.
  - exact H.
Defined.

(** ** Emitting a file *)

Lemma Create_failure w name w' file err :
  os.Create w name = (w', file, Some err) -> w' = w.
Proof.
  unfold os.Create. intros H.
  repeat case_match; simplify_eq; reflexivity.
Qed.

(** When [Create] succeeds the directory of the file is not the file. *)
Lemma Create_success_directory w name w' file :
  os.Create w name = (w', file, None) ->
  os.nodes w !! filepath.Dir file = Some os.Directory
  /\ filepath.Dir file <> file
  /\ name <> EmptyString.
Proof.
  unfold os.Create. intros H.
  destruct (String.eqb name EmptyString) eqn:Hname; [discriminate|].
  apply String.eqb_neq in Hname.
  destruct (os.nodes w !! filepath.Dir (filepath.Abs (os.wd w) name))
    as [[|?]|] eqn:Hdir; try discriminate.
  destruct (os.nodes w !! filepath.Abs (os.wd w) name) as [[|?]|] eqn:Hfile;
    try discriminate; injection H as <- <-;
    (split; [exact Hdir|]); (split; [|exact Hname]);
    intros Heq; rewrite Heq in Hdir; congruence.
Qed.

Lemma State_eta st : {| settings := settings st; world := world st |} = st.
Proof. now destruct st. Qed.

Lemma createStructOfTable_failure gofmt st table w' file err :
  os.Create (world st) (outputFileName (settings st) table)
  = (w', file, Some err) ->
  createStructOfTable gofmt st table = (st, Some err).
Proof.
  intros Hc. unfold createStructOfTable. rewrite Hc.
  rewrite (Create_failure _ _ _ _ _ Hc). now rewrite State_eta.
Qed.

Lemma createStructOfTable_wd gofmt st table :
  os.wd (world (fst (createStructOfTable gofmt st table)))
  = os.wd (world st).
Proof.
  destruct (os.Create (world st) (outputFileName (settings st) table))
    as [[w' file] [err|]] eqn:Hc.
  - now rewrite (createStructOfTable_failure _ _ _ _ _ _ Hc).
  - now rewrite (createStructOfTable_success _ _ _ _ _ Hc).
Qed.

Lemma createStructOfTable_other gofmt st table path :
  path <> filepath.Abs (os.wd (world st))
            (outputFileName (settings st) table) ->
  os.nodes (world (fst (createStructOfTable gofmt st table))) !! path
  = os.nodes (world st) !! path.
Proof.
  intros Hne.
  destruct (os.Create (world st) (outputFileName (settings st) table))
    as [[w' file] [err|]] eqn:Hc.
  - now rewrite (createStructOfTable_failure _ _ _ _ _ _ Hc).
  - rewrite (createStructOfTable_success _ _ _ _ _ Hc). cbn.
    destruct (Create_success _ _ _ _ Hc) as [-> _].
    now apply lookup_insert_ne.
Qed.

(** X13: the only error [createStructOfTable] returns is the error of
    [os.Create]: a failure of the formatter is never reported.  When it
    returns an error, nothing has been written. *)
Theorem createStructOfTable_error :
  forall (gofmt : string -> option string) (st : State) (table : Table),
    snd (createStructOfTable gofmt st table)
    = snd (os.Create (world st) (outputFileName (settings st) table))
    /\ (snd (createStructOfTable gofmt st table) <> None ->
        fst (createStructOfTable gofmt st table) = st).
Proof.
  intros gofmt st table.
  destruct (os.Create (world st) (outputFileName (settings st) table))
    as [[w' file] [err|]] eqn:Hc; cbn [snd].
  - rewrite (createStructOfTable_failure _ _ _ _ _ _ Hc). auto.
  - rewrite (createStructOfTable_success _ _ _ _ _ Hc). cbn [snd].
    split; [reflexivity | congruence].
Qed.

(** X14: [createStructOfTable] touches one file.  It leaves the settings and
    the working directory as they are, and every node of the file system
    other than the file it creates. *)
Theorem createStructOfTable_frame :
  forall (gofmt : string -> option string) (st : State) (table : Table)
         (path : string),
    let st' := fst (createStructOfTable gofmt st table) in
    settings st' = settings st
    /\ os.wd (world st') = os.wd (world st)
    /\ (path <> filepath.Abs (os.wd (world st))
                  (outputFileName (settings st) table) ->
        os.nodes (world st') !! path = os.nodes (world st) !! path).
Proof.
  intros gofmt st table path st'. subst st'.
  split; [apply createStructOfTable_settings|].
  split; [apply createStructOfTable_wd | apply createStructOfTable_other].
Qed.

Lemma createStructOfTable_frame_witness :
  let st := {| settings := fst (VerifySettings homeWorld NewSettings);
               world := homeWorld |} in
  os.nodes (world (fst (createStructOfTable acceptingFormatter st usersTable)))
    !! "/home/user/output"
  = Some os.Directory.
Proof.
  intros st.
  destruct (createStructOfTable_frame acceptingFormatter st usersTable
              "/home/user/output") as (_ & _ & H).
  rewrite H; [reflexivity | discriminate].
Defined.

(** X15: emitting is idempotent.  Emitting the struct of a table a second
    time, from the state the first emission left, gives the same state and
    the same result: the file is truncated and written anew. *)
Theorem createStructOfTable_idempotent :
  forall (gofmt : string -> option string) (st : State) (table : Table),
    createStructOfTable gofmt (fst (createStructOfTable gofmt st table)) table
    = createStructOfTable gofmt st table.
Proof.
  intros gofmt st table.
  destruct (os.Create (world st) (outputFileName (settings st) table))
    as [[w' file] [err|]] eqn:Hc.
  - rewrite (createStructOfTable_failure _ _ _ _ _ _ Hc). cbn [fst].
    apply (createStructOfTable_failure _ _ _ _ _ _ Hc).
  - rewrite (createStructOfTable_success _ _ _ _ _ Hc). cbn [fst].
    destruct (Create_success _ _ _ _ Hc) as [Hfile _].
    destruct (Create_success_directory _ _ _ _ Hc) as (Hdir & Hneq & Hname).
    set (content := fst (format_Source gofmt _)).
    unfold createStructOfTable. cbn [settings world].
    assert (Hc2 : os.Create
                    {| os.wd := os.wd (world st);
                       os.nodes := <[file := os.Regular content]>
                                     (os.nodes (world st)) |}
                    (outputFileName (settings st) table)
                  = ({| os.wd := os.wd (world st);
                        os.nodes := <[file := os.Regular EmptyString]>
                                      (os.nodes (world st)) |}, file, None)).
    { unfold os.Create. cbn [os.wd os.nodes]. rewrite <- Hfile.
      apply String.eqb_neq in Hname. rewrite Hname.
      rewrite lookup_insert_ne by (intros Heq; now apply Hneq).
      rewrite Hdir, lookup_insert_eq, insert_insert_eq. reflexivity. }
    rewrite Hc2. fold content.
    destruct (format_Source gofmt _) as [formatted e] eqn:Hf.
    subst content. cbn [fst]. now rewrite Write_created.
Qed.

(** ** The run over the tables *)

Lemma runTables_cons gofmt (db : Database) st table rest :
  runTables gofmt db st (table :: rest)
  = match snd (GetColumnsOfTable table) with
    | Some err => (st, Some err)
    | None =>
        match snd (createStructOfTable gofmt st
                     (fst (GetColumnsOfTable table))) with
        | Some err =>
            (fst (createStructOfTable gofmt st
                    (fst (GetColumnsOfTable table))), Some err)
        | None =>
            runTables gofmt db
              (fst (createStructOfTable gofmt st
                      (fst (GetColumnsOfTable table)))) rest
        end
    end.
Proof.
  cbn [runTables]. destruct (GetColumnsOfTable table) as [table' [err|]];
    cbn [fst snd]; [reflexivity|].
  destruct (createStructOfTable gofmt st table') as [st' [err|]]; reflexivity.
Qed.

(** X16: the run fails fast and composes.  Running over a list of tables is
    running over its front and, if that returned no error, over its back
    from the state reached; an error in the front ends the run there and the
    tables after it are not touched. *)
Theorem runTables_append :
  forall (gofmt : string -> option string) (db : Database) (st : State)
         (front back : list Table),
    runTables gofmt db st (front ++ back)
    = match snd (runTables gofmt db st front) with
      | Some err => (fst (runTables gofmt db st front), Some err)
      | None => runTables gofmt db (fst (runTables gofmt db st front)) back
      end.
Proof.
  intros gofmt db st front back. revert st.
  induction front as [|table front IH]; intros st; [reflexivity|].
  cbn [app]. rewrite !runTables_cons.
  destruct (snd (GetColumnsOfTable table)); [reflexivity|].
  destruct (snd (createStructOfTable gofmt st (fst (GetColumnsOfTable table))));
    [reflexivity|].
  apply IH.
Qed.

(** The settings and the working directory are the same in every state of
    the run, so a table is emitted at the same path whenever its turn
    comes. *)
Lemma emittedPath_stable gofmt (db : Database) st table table' :
  emittedPath db (fst (createStructOfTable gofmt st table')) table
  = emittedPath db st table.
Proof.
  unfold emittedPath.
  now rewrite createStructOfTable_settings, createStructOfTable_wd.
Qed.

Lemma emittedContent_stable gofmt (db : Database) st table table' :
  emittedContent gofmt db (fst (createStructOfTable gofmt st table')) table
  = emittedContent gofmt db st table.
Proof.
  unfold emittedContent. now rewrite createStructOfTable_settings.
Qed.

Lemma runTables_wd gofmt (db : Database) tables : forall st,
  os.wd (world (fst (runTables gofmt db st tables))) = os.wd (world st).
Proof.
  induction tables as [|table rest IH]; intros st; [reflexivity|].
  rewrite runTables_cons.
  destruct (snd (GetColumnsOfTable table)); [reflexivity|].
  pose proof (createStructOfTable_wd gofmt st (fst (GetColumnsOfTable table)))
    as Hwd.
  destruct (snd (createStructOfTable gofmt st (fst (GetColumnsOfTable table))));
    cbn [fst]; [exact Hwd|].
  now rewrite IH.
Qed.

Lemma runTables_other gofmt (db : Database) tables : forall st path,
  (forall table, In table tables -> path <> emittedPath db st table) ->
  os.nodes (world (fst (runTables gofmt db st tables))) !! path
  = os.nodes (world st) !! path.
Proof.
  induction tables as [|table rest IH]; intros st path Hpath; [reflexivity|].
  rewrite runTables_cons.
  destruct (snd (GetColumnsOfTable table)); [reflexivity|].
  assert (Hone : os.nodes
                   (world (fst (createStructOfTable gofmt st
                                  (fst (GetColumnsOfTable table))))) !! path
                 = os.nodes (world st) !! path).
  { apply createStructOfTable_other. apply (Hpath table). now left. }
  destruct (snd (createStructOfTable gofmt st (fst (GetColumnsOfTable table))));
    cbn [fst]; [exact Hone|].
  rewrite IH; [exact Hone|].
  intros t Hin. rewrite emittedPath_stable. apply Hpath. now right.
Qed.

(** X17: the run writes nowhere else.  A node of the file system at a path
    that is the emitted path of no table of the list is after the run what
    it was before, whatever the outcome; the working directory does not
    change. *)
Theorem runTables_frame :
  forall (gofmt : string -> option string) (db : Database)
         (tables : list Table) (st : State) (path : string),
    (forall table, In table tables -> path <> emittedPath db st table) ->
    os.nodes (world (fst (runTables gofmt db st tables))) !! path
    = os.nodes (world st) !! path
    /\ os.wd (world (fst (runTables gofmt db st tables))) = os.wd (world st).
Proof.
  intros gofmt db tables st path Hpath.
  split; [now apply runTables_other | apply runTables_wd].
Qed.

Lemma runTables_frame_witness :
  let st := {| settings := fst (VerifySettings homeWorld NewSettings);
               world := homeWorld |} in
  os.nodes (world (fst (runTables acceptingFormatter usersCatalog st
                          [usersTable]))) !! "/home/user/output"
  = Some os.Directory.
Proof.
  intros st.
  destruct (runTables_frame acceptingFormatter usersCatalog [usersTable] st
              "/home/user/output") as [H _].
  - intros table [<-|[]]. discriminate.
  - rewrite H. reflexivity.
Defined.



(** X19: one file per table.  When the run over the tables returns no
    error, the emitted path of every table of the list names a regular
    file; and if no other table of the list is emitted at the same path,
    the file holds what the formatter returned for that table. *)
Theorem runTables_emits :
  forall (gofmt : string -> option string) (db : Database)
         (tables : list Table) (st : State),
    snd (runTables gofmt db st tables) = None ->
    List.NoDup (map (emittedPath db st) tables) ->
    forall table, In table tables ->
      os.nodes (world (fst (runTables gofmt db st tables)))
        !! emittedPath db st table
      = Some (os.Regular (emittedContent gofmt db st table)).
Proof.
  intros gofmt db tables. induction tables as [|first rest IH];
    intros st Hok Hnodup table Hin; [contradiction|].
  rewrite runTables_cons in Hok |- *.
  destruct (snd (GetColumnsOfTable first)); [discriminate|].
  set (table' := fst (GetColumnsOfTable first)) in *.
  destruct (snd (createStructOfTable gofmt st table')) eqn:Hemit;
    [discriminate|].
  inversion Hnodup as [|? ? Hfresh Hrest]; subst.
  destruct Hin as [<-|Hin].
  - rewrite runTables_other.
    2:{ intros t Ht Heq. apply Hfresh. rewrite emittedPath_stable in Heq.
        rewrite Heq. now apply in_map. }
    destruct (os.Create (world st) (outputFileName (settings st) table'))
      as [[w' file] [err|]] eqn:Hc.
    + rewrite (createStructOfTable_failure _ _ _ _ _ _ Hc) in Hemit.
      discriminate.
    + rewrite (createStructOfTable_success _ _ _ _ _ Hc). cbn [fst world os.nodes].
      destruct (Create_success _ _ _ _ Hc) as [-> _].
      apply lookup_insert_eq.
  - rewrite <- (emittedPath_stable gofmt db st table table').
    rewrite <- (emittedContent_stable gofmt db st table table').
    apply IH; [exact Hok | | exact Hin].
    erewrite map_ext; [exact Hrest|].
    intros t. apply emittedPath_stable.
Qed.

Lemma runTables_emits_witness :
  let st := {| settings := fst (VerifySettings homeWorld NewSettings);
               world := homeWorld |} in
  os.nodes (world (fst (runTables acceptingFormatter usersCatalog st
                          [usersTable])))
    !! emittedPath usersCatalog st usersTable
  = Some (os.Regular
            (emittedContent acceptingFormatter usersCatalog st usersTable)).
Proof.
  intros st.
  apply (runTables_emits acceptingFormatter usersCatalog [usersTable] st).
  - vm_compute. reflexivity.
  - constructor; [intros [] | constructor].
  - now left.
Defined.



(** ** The default settings *)

(** X20: the default settings are valid wherever their output directory
    exists: [VerifySettings] accepts them and changes the output path
    alone, to its absolute form. *)
Theorem NewSettings_valid :
  forall w : os.World,
    outputDirectoryExists w NewSettings ->
    VerifySettings w NewSettings
    = (setOutputFilePath (filepath.Abs (os.wd w) "./output/") NewSettings,
       None).
Proof.
  intros w Hdir. apply verifyOutputPath_ok in Hdir.
  now rewrite VerifySettings_checked.
Qed.

Lemma NewSettings_valid_witness :
  VerifySettings homeWorld NewSettings
  = (setOutputFilePath "/home/user/output" NewSettings, None).
Proof.
  apply (NewSettings_valid homeWorld). split; [discriminate | reflexivity].
Defined.

(** ** The dialect of a run *)

(** X21: a run consults the database of its dialect alone.  With the dialect
    "mysql" the result of [Run] does not depend on the Postgres database,
    and with any other dialect it does not depend on the MySQL database. *)
Theorem Run_dialect :
  forall (gofmt : string -> option string) (connect : Settings -> error)
         (MySQLDatabase PostgreDatabase other : Settings -> Database)
         (w : os.World) (s : Settings),
    Run gofmt connect MySQLDatabase PostgreDatabase w s
    = if String.eqb (DbType s) "mysql"
      then Run gofmt connect MySQLDatabase other w s
      else Run gofmt connect other PostgreDatabase w s.
Proof.
  intros gofmt connect MySQLDatabase PostgreDatabase other w s.
  pose proof (VerifySettings_frame w s) as ((_ & Hdb & _) & _). cbn zeta in Hdb.
  unfold Run.
  destruct (VerifySettings w s) as [s1 [err|]]; cbn [fst] in Hdb.
  - destruct (String.eqb (DbType s) "mysql"); reflexivity.
  - destruct (connect s1); [destruct (String.eqb (DbType s) "mysql"); reflexivity|].
    rewrite Hdb. destruct (String.eqb (DbType s) "mysql"); reflexivity.
Qed.
